(** * SCA scan orchestration of jfrog-cli-core ([xray/commands/audit/scarunner.go])

    A shallow embedding of the scan orchestrator: scheduling of scan units
    from the technology detector's answer, the per-unit scan with its
    working-directory change, the resolution-repository resolver and the
    tree flattener.  Go maps and sets are [gmap]/[gset]; their unspecified
    iteration order is an explicit permutation supplied by the environment.
    Process state (working directory, the shared [*AuditParams]) is threaded
    through a small state monad together with a ghost trace of the calls
    made to the outside world. *)

From Stdlib Require Import Ascii String.
From stdpp Require Import gmap strings list fin_maps.

Local Open Scope string_scope.
Local Open Scope list_scope.
Local Set Warnings "-register-all".

(** ** Errors ([error], [errors.Join], [fmt.Errorf]) *)

Inductive error : Type :=
  | errorString (msg : string)
  | joinError (errs : list error).

Definition nl : string := String (Ascii.ascii_of_nat 10) EmptyString.

(** [err.Error()]: a joined error prints its members one per line. *)
Fixpoint Error (e : error) : string :=
  match e with
  | errorString msg => msg
  | joinError errs =>
      (fix lines (l : list error) : string :=
         match l with
         | [] => ""
         | [x] => Error x
         | x :: rest => Error x +:+ nl +:+ lines rest
         end) errs
  end.

(** [errors.Join(errs...)]: nil values are discarded, and the result is nil
    when nothing is left. *)
Definition errors_Join (errs : list (option error)) : option error :=
  match omap id errs with
  | [] => None
  | es => Some (joinError es)
  end.

(** [errorutils.CheckError] hands a non-nil error back to its caller. *)
Definition CheckError (e : option error) : option error := e.

Definition CheckErrorf (msg : string) : option error :=
  CheckError (Some (errorString msg)).

Inductive result (A : Type) : Type :=
  | Ok (a : A)
  | Err (e : error).
Arguments Ok {A} a.
Arguments Err {A} e.

(** ** Technologies ([coreutils.Technology]) and project types *)

Inductive Technology : Type :=
  | Maven | Gradle | Npm | Yarn | Go | Pip | Pipenv | Poetry | Nuget | Dotnet
  | Docker.

Global Instance Technology_eq_dec : EqDecision Technology.
Proof. solve_decision. Defined.

Definition Technology_to_nat (t : Technology) : nat :=
  match t with
  | Maven => 0 | Gradle => 1 | Npm => 2 | Yarn => 3 | Go => 4 | Pip => 5
  | Pipenv => 6 | Poetry => 7 | Nuget => 8 | Dotnet => 9 | Docker => 10
  end.

Definition Technology_of_nat (n : nat) : Technology :=
  match n with
  | 0 => Maven | 1 => Gradle | 2 => Npm | 3 => Yarn | 4 => Go | 5 => Pip
  | 6 => Pipenv | 7 => Poetry | 8 => Nuget | 9 => Dotnet | _ => Docker
  end.

Global Instance Technology_countable : Countable Technology.
Proof.
  apply (inj_countable' Technology_to_nat Technology_of_nat).
  by intros [].
Defined.

(** [tech.String()] *)
Definition Technology_String (t : Technology) : string :=
  match t with
  | Maven => "maven" | Gradle => "gradle" | Npm => "npm" | Yarn => "yarn"
  | Go => "go" | Pip => "pip" | Pipenv => "pipenv" | Poetry => "poetry"
  | Nuget => "nuget" | Dotnet => "dotnet" | Docker => "docker"
  end.

Inductive ProjectType : Type :=
  | ProjGo | ProjPip | ProjPipenv | ProjPoetry | ProjNpm | ProjYarn
  | ProjNuget | ProjMaven | ProjGradle | ProjDotnet.

Global Instance ProjectType_eq_dec : EqDecision ProjectType.
Proof. solve_decision. Defined.

(** The [techType] table.  Docker has no entry; indexing a Go map with a
    missing key yields the zero value of [project.ProjectType], the first
    constant of its [iota] block. *)
Definition techType (t : Technology) : ProjectType :=
  match t with
  | Maven => ProjMaven | Gradle => ProjGradle | Npm => ProjNpm
  | Yarn => ProjYarn | Go => ProjGo | Pip => ProjPip | Pipenv => ProjPipenv
  | Poetry => ProjPoetry | Nuget => ProjNuget | Dotnet => ProjDotnet
  | Docker => ProjGo
  end.

(** ** Data model *)

Inductive GraphNode : Type :=
  | mkGraphNode (Id : string) (Nodes : list GraphNode).

Definition Id (n : GraphNode) : string := let 'mkGraphNode i _ := n in i.
Definition Nodes (n : GraphNode) : list GraphNode :=
  let 'mkGraphNode _ ns := n in ns.

(** Opaque handles of the collaborators. *)
Definition ServerDetails : Type := string.
Definition ScanResponse : Type := string.

Record ScaScanResult : Type := mkScaScanResult {
  WorkingDirectory : string;
  ScanTechnology : Technology;
  Descriptors : list string;
  IsMultipleRootProject : option bool;
  XrayResults : list ScanResponse
}.

(** [&xrayutils.ScaScanResult{WorkingDirectory: .., Technology: .., Descriptors: ..}] *)
Definition newScan (wd : string) (tech : Technology) (descriptors : list string)
  : ScaScanResult :=
  mkScaScanResult wd tech descriptors None [].

Record AuditParams : Type := mkAuditParams {
  workingDirs : list string;
  technologies : list string;
  exclusions : list string;
  pipRequirementsFile : string;
  depsRepo : string;
  ignoreConfigFile : bool;
  serverDetails : ServerDetails;
  thirdPartyApplicabilityScan : bool;
  dependenciesForApplicabilityScan : list string;
  xrayGraphScanParams : string;
  xrayVersion : string;
  fixableOnly : bool;
  minSeverityFilter : string
}.

Definition SetServerDetails (d : ServerDetails) (p : AuditParams) : AuditParams :=
  mkAuditParams (workingDirs p) (technologies p) (exclusions p)
    (pipRequirementsFile p) (depsRepo p) (ignoreConfigFile p) d
    (thirdPartyApplicabilityScan p) (dependenciesForApplicabilityScan p)
    (xrayGraphScanParams p) (xrayVersion p) (fixableOnly p)
    (minSeverityFilter p).

Definition SetDepsRepo (r : string) (p : AuditParams) : AuditParams :=
  mkAuditParams (workingDirs p) (technologies p) (exclusions p)
    (pipRequirementsFile p) r (ignoreConfigFile p) (serverDetails p)
    (thirdPartyApplicabilityScan p) (dependenciesForApplicabilityScan p)
    (xrayGraphScanParams p) (xrayVersion p) (fixableOnly p)
    (minSeverityFilter p).

Definition AppendDependenciesForApplicabilityScan (ds : list string)
    (p : AuditParams) : AuditParams :=
  mkAuditParams (workingDirs p) (technologies p) (exclusions p)
    (pipRequirementsFile p) (depsRepo p) (ignoreConfigFile p) (serverDetails p)
    (thirdPartyApplicabilityScan p)
    (dependenciesForApplicabilityScan p ++ ds)
    (xrayGraphScanParams p) (xrayVersion p) (fixableOnly p)
    (minSeverityFilter p).

Record RepoConfig : Type := mkRepoConfig {
  repoServer : result ServerDetails;
  TargetRepo : string
}.

(** ** The process and the file system it runs in *)

Record World : Type := mkWorld {
  cwd : string;
  dirs : gset string
}.

(** Calls that leave the process, in the order they were made. *)
Inductive Event : Type :=
  | EvChdir (dir : string)
  | EvDetect (dir : string) (recursive : bool)
  | EvConfLookup (pt : ProjectType)
  | EvConfRead (path : string)
  | EvBuild (tech : Technology)
  | EvScanGraph (tech : Technology).

Record State : Type := mkState {
  world : World;
  params : AuditParams;
  trace : list Event
}.

Definition M (A : Type) : Type := State → A * State.

Global Instance M_ret : MRet M := λ A a s, (a, s).
Global Instance M_bind : MBind M := λ A B f m s, let '(a, s') := m s in f a s'.

Definition getWorld : M World := λ s, (world s, s).
Definition getParams : M AuditParams := λ s, (params s, s).
Definition putWorld (w : World) : M unit :=
  λ s, (tt, mkState w (params s) (trace s)).
Definition modifyParams (f : AuditParams → AuditParams) : M unit :=
  λ s, (tt, mkState (world s) (f (params s)) (trace s)).
Definition emit (e : Event) : M unit :=
  λ s, (tt, mkState (world s) (params s) (trace s ++ [e])).

Definition isAbs (p : string) : bool :=
  match p with
  | String c _ => bool_decide (c = "/"%char)
  | EmptyString => false
  end.

Definition resolvePath (base p : string) : string :=
  if isAbs p then p else base +:+ "/" +:+ p.

(** [os.Chdir]: the working directory moves only when the target can be
    entered. *)
Definition os_Chdir (dir : string) : M (option error) :=
  _ ← emit (EvChdir dir);
  w ← getWorld;
  let target := resolvePath (cwd w) dir in
  if bool_decide (target ∈ dirs w)
  then _ ← putWorld (mkWorld target (dirs w)); mret None
  else mret (Some (errorString ("chdir " +:+ dir +:+ ": no such file or directory"))).

(** [os.Getwd] *)
Definition os_Getwd : M (result string) :=
  w ← getWorld;
  if bool_decide (cwd w ∈ dirs w)
  then mret (Ok (cwd w))
  else mret (Err (errorString "getwd: no such file or directory")).

(** ** Collaborators

    Everything the orchestrator calls but does not implement: the technology
    detector, the per-technology tree builders, the scan backend, the
    project-configuration reader, and the iteration order the Go runtime
    picks when ranging over a map. *)

Definition BuildResult : Type := list GraphNode * list string * option error.
Definition TechMap : Type := gmap Technology (gmap string (list string)).

Record AuditPython : Type := mkAuditPython {
  Server : ServerDetails;
  Tool : Technology;
  RemotePypiRepo : string;
  PipRequirementsFile : string
}.

Record ScanGraphParams : Type := mkScanGraphParams {
  sgServerDetails : ServerDetails;
  sgXrayGraphScanParams : string;
  sgXrayVersion : string;
  sgFixableOnly : bool;
  sgSeverityLevel : string
}.

Record Collaborators : Type := mkCollaborators {
  rangeTechs : list (Technology * gmap string (list string)) →
               list (Technology * gmap string (list string));
  rangeTechs_perm : ∀ l, rangeTechs l ≡ₚ l;
  rangeDirs : list (string * list string) → list (string * list string);
  rangeDirs_perm : ∀ l, rangeDirs l ≡ₚ l;
  rangeSet : list string → list string;
  rangeSet_perm : ∀ l, rangeSet l ≡ₚ l;
  params_ServerDetails : AuditParams → result ServerDetails;
  DetectTechnologiesDescriptors :
    string → bool → list string → gmap Technology (list string) → string →
    World → result TechMap;
  PrepareExcludePathPattern : list string → bool → string;
  GetJsonIndent : list ScaScanResult → result string;
  GetProjectConfFilePath : ProjectType → World → string * bool * option error;
  ReadResolutionOnlyConfiguration : string → World → result RepoConfig;
  java_BuildDependencyTree : AuditParams → Technology → World → BuildResult * World;
  npm_BuildDependencyTree : AuditParams → World → BuildResult * World;
  yarn_BuildDependencyTree : AuditParams → World → BuildResult * World;
  go_BuildDependencyTree : AuditParams → World → BuildResult * World;
  python_BuildDependencyTree : AuditPython → World → BuildResult * World;
  nuget_BuildDependencyTree : AuditParams → World → BuildResult * World;
  RunXrayDependenciesTreeScanGraph :
    GraphNode → Technology → ScanGraphParams → World →
    (list ScanResponse * option error) * World;
  BuildImpactPathsForScanResponse :
    list ScanResponse → list GraphNode → list ScanResponse
}.

Definition DefaultExcludePatterns : list string :=
  ["*.git*"; "*node_modules*"; "*target*"; "*venv*"; "*test*"].

Definition noDependenciesMsg : string :=
  "no dependencies were found. Please try to build your project and re-run the audit command".

Section Orchestrator.

Variable E : Collaborators.

(** [datastructures.Set]: a map-backed set; [ToSlice] ranges over the map. *)
Definition MakeSet (l : list string) : gset string := list_to_set l.
Definition ToSlice (s : gset string) : list string := rangeSet E (elements s).

(** *** Scheduling *)

Definition getRequestedDirectoriesToScan (currentWorkingDir : string)
    (p : AuditParams) : list string * bool :=
  let workingDirsSet := MakeSet (workingDirs p) in
  if bool_decide (length (workingDirs p) = 0)
  then ([currentWorkingDir], true)
  else (ToSlice workingDirsSet, false).

Definition getRequestedDescriptors (p : AuditParams)
  : gmap Technology (list string) :=
  if bool_decide (pipRequirementsFile p ≠ "")
  then {[ Pip := [pipRequirementsFile p] ]}
  else ∅.

Definition getExcludePattern (p : AuditParams) (recursive : bool) : string :=
  let excl := exclusions p in
  let excl := if bool_decide (length excl = 0)
              then excl ++ DefaultExcludePatterns else excl in
  PrepareExcludePathPattern E excl recursive.

(** Body of [for workingDir, descriptors := range workingDirs]. *)
Definition addDetectedDirs (tech : Technology)
    (workingDirsOfTech : gmap string (list string))
    (scansToPreform : list ScaScanResult) : list ScaScanResult :=
  foldl (λ acc '(workingDir, descriptors),
           acc ++ [newScan workingDir tech descriptors])
        scansToPreform (rangeDirs E (map_to_list workingDirsOfTech)).

(** Body of [for tech, workingDirs := range techToWorkingDirs]. *)
Definition addTech (requestedDirectory : string)
    (scansToPreform : list ScaScanResult)
    (entry : Technology * gmap string (list string)) : list ScaScanResult :=
  let '(tech, workingDirsOfTech) := entry in
  if bool_decide (tech = Dotnet) then scansToPreform
  else
    let scansToPreform :=
      if bool_decide (size workingDirsOfTech = 0)
      then scansToPreform ++ [newScan requestedDirectory tech []]
      else scansToPreform in
    addDetectedDirs tech workingDirsOfTech scansToPreform.

Definition addDetection (requestedDirectory : string)
    (techToWorkingDirs : TechMap)
    (scansToPreform : list ScaScanResult) : list ScaScanResult :=
  foldl (addTech requestedDirectory) scansToPreform
        (rangeTechs E (map_to_list techToWorkingDirs)).

Definition detect (requestedDirectory : string) (isRecursive : bool)
  : M (result TechMap) :=
  _ ← emit (EvDetect requestedDirectory isRecursive);
  p ← getParams;
  w ← getWorld;
  mret (DetectTechnologiesDescriptors E requestedDirectory isRecursive
          (technologies p) (getRequestedDescriptors p)
          (getExcludePattern p isRecursive) w).

Fixpoint forRequestedDirectories (requestedDirectories : list string)
    (isRecursive : bool) (scansToPreform : list ScaScanResult)
  : M (list ScaScanResult) :=
  match requestedDirectories with
  | [] => mret scansToPreform
  | requestedDirectory :: rest =>
      r ← detect requestedDirectory isRecursive;
      match r with
      | Err _ => forRequestedDirectories rest isRecursive scansToPreform
      | Ok techToWorkingDirs =>
          forRequestedDirectories rest isRecursive
            (addDetection requestedDirectory techToWorkingDirs scansToPreform)
      end
  end.

Definition getScaScansToPreform (currentWorkingDir : string)
  : M (list ScaScanResult) :=
  p ← getParams;
  let '(requestedDirectories, isRecursive) :=
    getRequestedDirectoriesToScan currentWorkingDir p in
  forRequestedDirectories requestedDirectories isRecursive [].

(** *** Tree flattener *)

(** In DEBUG mode the list is also marshalled for the log; [json.Marshal]
    has no failing case on a [[]string], so the early [return nil, err] is
    dead and the function always reaches the final [return]. *)
Definition createFlatTree (uniqueDeps : list string)
  : option GraphNode * option error :=
  let uniqueNodes :=
    foldl (λ acc uniqueDep, acc ++ [mkGraphNode uniqueDep []]) [] uniqueDeps in
  (Some (mkGraphNode "root" uniqueNodes), None).

(** *** Resolution repository resolver *)

Definition lookupConf (pt : ProjectType) : M (string * bool * option error) :=
  _ ← emit (EvConfLookup pt);
  w ← getWorld;
  mret (GetProjectConfFilePath E pt w).

Definition readConf (configFilePath : string) : M (result RepoConfig) :=
  _ ← emit (EvConfRead configFilePath);
  w ← getWorld;
  mret (ReadResolutionOnlyConfiguration E configFilePath w).

Definition searchErr (tech : Technology) (e : error) : option error :=
  Some (errorString ("failed while searching for " +:+ Technology_String tech
                     +:+ ".yaml config file: " +:+ Error e)).

(** Everything after [log.Debug("Using resolver config from", configFilePath)]. *)
Definition useResolverConfig (tech : Technology) (configFilePath : string)
  : M (option error) :=
  r ← readConf configFilePath;
  match r with
  | Err e =>
      mret (Some (errorString ("failed while reading " +:+ Technology_String tech
                               +:+ ".yaml config file: " +:+ Error e)))
  | Ok repoConfig =>
      match repoServer repoConfig with
      | Err e =>
          mret (Some (errorString ("failed getting server details: " +:+ Error e)))
      | Ok details =>
          _ ← modifyParams (SetServerDetails details);
          _ ← modifyParams (SetDepsRepo (TargetRepo repoConfig));
          mret None
      end
  end.

Definition SetResolutionRepoIfExists (tech : Technology) : M (option error) :=
  p ← getParams;
  if bool_decide (depsRepo p ≠ "") || ignoreConfigFile p then mret None
  else
    '(configFilePath, exists_, err) ← lookupConf (techType tech);
    match err with
    | Some e => mret (searchErr tech e)
    | None =>
        if negb exists_ then
          if bool_decide (tech = Nuget) then
            '(configFilePath, exists_, err) ← lookupConf (techType Dotnet);
            match err with
            | Some e => mret (searchErr tech e)
            | None =>
                if negb exists_ then mret None
                else useResolverConfig tech configFilePath
            end
          else mret None
        else useResolverConfig tech configFilePath
    end.

(** *** Building the dependency tree of one technology *)

Definition callBuilder (tech : Technology)
    (build : World → BuildResult * World) : M BuildResult :=
  _ ← emit (EvBuild tech);
  w ← getWorld;
  let '(r, w') := build w in
  _ ← putWorld w';
  mret r.

(** The [switch tech] of [GetTechDependencyTree]. *)
Definition buildDependencyTree (serverDetails : ServerDetails)
    (tech : Technology) : M BuildResult :=
  p ← getParams;
  match tech with
  | Maven | Gradle => callBuilder tech (java_BuildDependencyTree E p tech)
  | Npm => callBuilder tech (npm_BuildDependencyTree E p)
  | Yarn => callBuilder tech (yarn_BuildDependencyTree E p)
  | Go => callBuilder tech (go_BuildDependencyTree E p)
  | Pipenv | Pip | Poetry =>
      callBuilder tech
        (python_BuildDependencyTree E
           (mkAuditPython serverDetails tech (depsRepo p) (pipRequirementsFile p)))
  | Nuget => callBuilder tech (nuget_BuildDependencyTree E p)
  | _ =>
      mret ([], [], CheckErrorf (Technology_String tech
                                 +:+ " is currently not supported"))
  end.

Definition GetTechDependencyTree (tech : Technology)
  : M (option GraphNode * list GraphNode * option error) :=
  p ← getParams;
  match params_ServerDetails E p with
  | Err e => mret (None, [], Some e)
  | Ok serverDetails =>
      err ← SetResolutionRepoIfExists tech;
      match err with
      | Some e => mret (None, [], Some e)
      | None =>
          '(fullDependencyTrees, uniqueDeps, err) ←
            buildDependencyTree serverDetails tech;
          if bool_decide (err ≠ None) || bool_decide (length uniqueDeps = 0)
          then mret (None, fullDependencyTrees, err)
          else
            let '(flatTree, err) := createFlatTree uniqueDeps in
            mret (flatTree, fullDependencyTrees, err)
      end
  end.

(** *** Scanning one unit *)

Definition runScaWithTech (tech : Technology) (serverDetails : ServerDetails)
    (flatTree : GraphNode) (fullDependencyTrees : list GraphNode)
  : M (list ScanResponse * option error) :=
  p ← getParams;
  let scanGraphParams :=
    mkScanGraphParams serverDetails (xrayGraphScanParams p) (xrayVersion p)
                      (fixableOnly p) (minSeverityFilter p) in
  _ ← emit (EvScanGraph tech);
  w ← getWorld;
  let '((techResults, err), w') :=
    RunXrayDependenciesTreeScanGraph E flatTree tech scanGraphParams w in
  _ ← putWorld w';
  match err with
  | Some _ => mret (techResults, err)
  | None =>
      mret (BuildImpactPathsForScanResponse E techResults fullDependencyTrees, None)
  end.

Definition shouldUseAllDependencies (thirdPartyApplicabilityScan : bool)
    (tech : Technology) : bool :=
  bool_decide (tech = Pip)
  || (thirdPartyApplicabilityScan && bool_decide (tech = Npm)).

Definition getDirectDependenciesFromTree (dependencyTrees : list GraphNode)
  : list string :=
  let directDependencies : gset string :=
    foldl (λ s tree, foldl (λ s node, {[ Id node ]} ∪ s) s (Nodes tree))
          ∅ dependencyTrees in
  ToSlice directDependencies.

Definition addThirdPartyDependenciesToParams (tech : Technology)
    (flatTree : GraphNode) (fullDependencyTrees : list GraphNode) : M unit :=
  p ← getParams;
  let dependenciesForApplicabilityScan :=
    if shouldUseAllDependencies (thirdPartyApplicabilityScan p) tech
    then getDirectDependenciesFromTree [flatTree]
    else getDirectDependenciesFromTree fullDependencyTrees in
  modifyParams (AppendDependenciesForApplicabilityScan
                  dependenciesForApplicabilityScan).

Definition buildFailed (tech : Technology) (e : error) : error :=
  errorString ("failed while building '" +:+ Technology_String tech
               +:+ "' dependency tree:" +:+ nl +:+ Error e).

Definition xrayFailed (tech : Technology) (e : error) : error :=
  errorString ("'" +:+ Technology_String tech
               +:+ "' Xray dependency tree scan request failed:" +:+ nl
               +:+ Error e).

Definition treeIsEmpty (flattenTree : option GraphNode) : bool :=
  match flattenTree with
  | None => true
  | Some t => bool_decide (length (Nodes t) = 0)
  end.

Definition executeScaScan (serverDetails : ServerDetails) (scan : ScaScanResult)
  : M (ScaScanResult * option error) :=
  chdirErr ← os_Chdir (WorkingDirectory scan);
  match chdirErr with
  | Some e => mret (scan, CheckError (Some e))
  | None =>
      '(flattenTree, fullDependencyTrees, techErr) ←
        GetTechDependencyTree (ScanTechnology scan);
      match techErr with
      | Some e => mret (scan, Some (buildFailed (ScanTechnology scan) e))
      | None =>
          match flattenTree with
          | Some flatTree =>
              if treeIsEmpty flattenTree
              then mret (scan, CheckErrorf noDependenciesMsg)
              else
                '(scanResults, xrayErr) ←
                  runScaWithTech (ScanTechnology scan) serverDetails flatTree
                                 fullDependencyTrees;
                match xrayErr with
                | Some e => mret (scan, Some (xrayFailed (ScanTechnology scan) e))
                | None =>
                    _ ← addThirdPartyDependenciesToParams (ScanTechnology scan)
                          flatTree fullDependencyTrees;
                    mret (mkScaScanResult (WorkingDirectory scan)
                            (ScanTechnology scan) (Descriptors scan)
                            (Some (bool_decide (1 < length fullDependencyTrees)))
                            (XrayResults scan ++ scanResults),
                          None)
                end
          | None => mret (scan, CheckErrorf noDependenciesMsg)
          end
      end
  end.

(** *** The orchestrator *)

Definition auditFailed (workingDirectory : string) (e : error) : error :=
  errorString ("audit command in '" +:+ workingDirectory +:+ "' failed:" +:+ nl
               +:+ Error e).

(** [for _, scan := range scans] with the running [err] and [results]. *)
Fixpoint scanLoop (serverDetails : ServerDetails) (scans : list ScaScanResult)
    (err : option error) (results : list ScaScanResult)
  : M (list ScaScanResult * option error) :=
  match scans with
  | [] => mret (results, err)
  | scan :: rest =>
      '(scan', wdScanErr) ← executeScaScan serverDetails scan;
      match wdScanErr with
      | Some e =>
          scanLoop serverDetails rest
            (errors_Join [err; Some (auditFailed (WorkingDirectory scan') e)])
            results
      | None => scanLoop serverDetails rest err (results ++ [scan'])
      end
  end.

Definition runScaScan (results : list ScaScanResult)
  : M (list ScaScanResult * option error) :=
  wd ← os_Getwd;
  match wd with
  | Err e => mret (results, Some e)
  | Ok currentWorkingDir =>
      p ← getParams;
      match params_ServerDetails E p with
      | Err e => mret (results, Some e)
      | Ok serverDetails =>
          scans ← getScaScansToPreform currentWorkingDir;
          if bool_decide (length scans = 0) then mret (results, None)
          else
            match GetJsonIndent E scans with
            | Err e => mret (results, Some e)
            | Ok _ =>
                '(results', err) ← scanLoop serverDetails scans None results;
                (* deferred *)
                restoreErr ← os_Chdir currentWorkingDir;
                mret (results', errors_Join [err; restoreErr])
            end
      end
  end.

End Orchestrator.

(** ** A concrete environment

    Collaborators that answer from fixed tables, with maps ranged over in
    the order [map_to_list] gives.  [demoDetect] is the detector's answer for
    every directory, [demoBuild] the answer of every tree builder. *)

Definition demoCollaborators (demoDetect : result TechMap)
    (demoConf : ProjectType → string * bool * option error)
    (demoBuild : BuildResult) : Collaborators :=
  {| rangeTechs := id;
     rangeTechs_perm := λ l, reflexivity l;
     rangeDirs := id;
     rangeDirs_perm := λ l, reflexivity l;
     rangeSet := id;
     rangeSet_perm := λ l, reflexivity l;
     params_ServerDetails := λ p, Ok (serverDetails p);
     DetectTechnologiesDescriptors := λ _ _ _ _ _ _, demoDetect;
     PrepareExcludePathPattern := λ excl _, String.concat ";" excl;
     GetJsonIndent := λ _, Ok "[]";
     GetProjectConfFilePath := λ pt _, demoConf pt;
     ReadResolutionOnlyConfiguration :=
       λ path _, Ok (mkRepoConfig (Ok "https://artifactory.example") "libs-virtual");
     java_BuildDependencyTree := λ _ _ w, (demoBuild, w);
     npm_BuildDependencyTree := λ _ w, (demoBuild, w);
     yarn_BuildDependencyTree := λ _ w, (demoBuild, w);
     go_BuildDependencyTree := λ _ w, (demoBuild, w);
     python_BuildDependencyTree := λ _ w, (demoBuild, w);
     nuget_BuildDependencyTree := λ _ w, (demoBuild, w);
     RunXrayDependenciesTreeScanGraph := λ _ _ _ w, ((["CVE-0000-0001"], None), w);
     BuildImpactPathsForScanResponse := λ rs _, rs |}.

Definition noConf (pt : ProjectType) : string * bool * option error :=
  ("", false, None).

Definition demoParams (wds : list string) : AuditParams :=
  mkAuditParams wds [] [] "" "" false "https://xray.example" false [] "" "3.80.0"
                false "".

Definition demoState (wds : list string) : State :=
  mkState (mkWorld "/repo" {[ "/repo"; "/repo/app"; "/repo/lib" ]})
          (demoParams wds) [].

(** Unfolds the monad's plumbing, leaving the calls of the program. *)
Ltac munfold :=
  cbv beta iota delta [mbind M_bind mret M_ret emit getParams getWorld
                       putWorld modifyParams];
  cbn [world params trace fst snd].

(** ** Lists built by appending in a loop *)

Lemma foldl_snoc_map {A B : Type} (f : A → B) (l : list A) (acc : list B) :
  foldl (λ acc x, acc ++ [f x]) acc l = acc ++ map f l.
Proof.
  revert acc. induction l as [|x l IH]; intros acc; simpl.
  - by rewrite app_nil_r.
  - rewrite IH. by rewrite <- app_assoc.
Qed.

Lemma perm_nil_inv {A : Type} (f : list A → list A) :
  (∀ l, f l ≡ₚ l) → f [] = [].
Proof. intros Hf. apply Permutation_nil_r. apply Hf. Qed.

(** ** The tree flattener *)

Definition leaf (id : string) : GraphNode := mkGraphNode id [].

Lemma createFlatTree_eq (uniqueDeps : list string) :
  createFlatTree uniqueDeps
  = (Some (mkGraphNode "root" (map leaf uniqueDeps)), None).
Proof.
  unfold createFlatTree. by rewrite (foldl_snoc_map leaf).
Qed.

Lemma map_Id_leaf (l : list string) : map Id (map leaf l) = l.
Proof. induction l as [|x l IH]; simpl; [done | by rewrite IH]. Qed.

(** The claim as stated, for every list: one child per unique identifier,
    no duplicate child identifiers. *)
Definition flat_children_unique (uniqueDeps : list string) : Prop :=
  ∃ root, createFlatTree uniqueDeps = (Some root, None) ∧
          Id root = "root" ∧
          NoDup (map Id (Nodes root)) ∧
          length (Nodes root) = size (list_to_set uniqueDeps : gset string).

(** C3 (as stated) fails: the flattener copies its input, so a repeated
    identifier is a repeated child. *)
Lemma createFlatTree_keeps_duplicates :
  createFlatTree ["pkg:a@1"; "pkg:a@1"]
  = (Some (mkGraphNode "root" [leaf "pkg:a@1"; leaf "pkg:a@1"]), None)
  ∧ ¬ flat_children_unique ["pkg:a@1"; "pkg:a@1"].
Proof.
  split; [reflexivity|].
  intros (root & Heq & _ & Hnd & _).
  rewrite createFlatTree_eq in Heq. injection Heq as <-. simpl in Hnd.
  apply NoDup_cons in Hnd as [Hin _]. apply Hin. by left.
Qed.

(** C3 (amended): for every list, the flattener returns a root ["root"]
    whose children are leaves carrying the input identifiers, one per list
    element, in input order; when the input list has no duplicates, no
    child identifier is repeated and the child count is the size of the
    identifier set. *)
Theorem createFlatTree_flat (uniqueDeps : list string) :
  ∃ root, createFlatTree uniqueDeps = (Some root, None) ∧
          Id root = "root" ∧
          map Id (Nodes root) = uniqueDeps ∧
          length (Nodes root) = length uniqueDeps ∧
          Forall (λ child, Nodes child = []) (Nodes root) ∧
          (NoDup uniqueDeps →
           NoDup (map Id (Nodes root)) ∧
           length (Nodes root) = size (list_to_set uniqueDeps : gset string)).
Proof.
  exists (mkGraphNode "root" (map leaf uniqueDeps)).
  split; [apply createFlatTree_eq|]. simpl.
  rewrite map_Id_leaf, length_map. split_and!; try done.
  - apply Forall_forall. intros c Hc.
    apply list_elem_of_fmap in Hc as (x & -> & _). done.
  - intros Hnd. split; [exact Hnd|].
    symmetry. by apply size_list_to_set.
Qed.

Lemma createFlatTree_flat_witness :
  ∃ root, createFlatTree ["pkg:a@1"; "pkg:b@2"] = (Some root, None) ∧
          Id root = "root" ∧
          map Id (Nodes root) = ["pkg:a@1"; "pkg:b@2"] ∧
          Forall (λ child, Nodes child = []) (Nodes root) ∧
          NoDup (map Id (Nodes root)) ∧
          length (Nodes root)
          = size (list_to_set ["pkg:a@1"; "pkg:b@2"] : gset string).
Proof.
  destruct (createFlatTree_flat ["pkg:a@1"; "pkg:b@2"])
    as (root & Heq & Hid & Hids & _ & Hleaves & Hnodup).
  exists root. split_and!; [exact Heq|exact Hid|exact Hids|exact Hleaves|..];
    apply Hnodup; apply (bool_decide_unpack _); vm_compute; exact I.
Defined.

(** ** Candidate directories *)

Section Scheduling.

Variable E : Collaborators.

Lemma ToSlice_NoDup (s : gset string) : NoDup (ToSlice E s).
Proof.
  unfold ToSlice. rewrite (rangeSet_perm E). apply NoDup_elements.
Qed.

Lemma elem_of_ToSlice (s : gset string) (x : string) : x ∈ ToSlice E s ↔ x ∈ s.
Proof.
  unfold ToSlice. rewrite (rangeSet_perm E). apply elem_of_elements.
Qed.

(** C9: without caller-specified directories the answer is the current
    directory in recursive mode; otherwise it is the caller's directories
    (as a set, each once) in non-recursive mode, so the recursive flag is
    raised exactly when no directory was specified. *)
Theorem getRequestedDirectoriesToScan_modes
    (currentWorkingDir : string) (p : AuditParams) :
  (getRequestedDirectoriesToScan E currentWorkingDir p
   = if decide (workingDirs p = [])
     then ([currentWorkingDir], true)
     else (ToSlice E (MakeSet (workingDirs p)), false))
  ∧ NoDup (ToSlice E (MakeSet (workingDirs p)))
  ∧ (∀ d, d ∈ ToSlice E (MakeSet (workingDirs p)) ↔ d ∈ workingDirs p)
  ∧ ((getRequestedDirectoriesToScan E currentWorkingDir p).2 = true
     ↔ workingDirs p = []).
Proof.
  unfold getRequestedDirectoriesToScan.
  split_and!.
  - destruct (workingDirs p) as [|d ds]; [done|].
    destruct (decide (d :: ds = [])); done.
  - apply ToSlice_NoDup.
  - intros d. rewrite elem_of_ToSlice. unfold MakeSet.
    apply elem_of_list_to_set.
  - destruct (workingDirs p) as [|d ds]; simpl; split; done.
Qed.

(** ** Scan units scheduled from one detection result *)

Definition scanOfDir (tech : Technology) (e : string * list string)
  : ScaScanResult :=
  newScan e.1 tech e.2.

(** What one entry [tech ↦ workingDirs] of the detection result adds when
    it is not suppressed. *)
Definition techUnits (requestedDirectory : string) (tech : Technology)
    (wds : gmap string (list string)) : list ScaScanResult :=
  (if bool_decide (size wds = 0)
   then [newScan requestedDirectory tech []] else [])
  ++ map (scanOfDir tech) (rangeDirs E (map_to_list wds)).

Definition entryUnits (requestedDirectory : string)
    (e : Technology * gmap string (list string)) : list ScaScanResult :=
  if bool_decide (e.1 = Dotnet) then []
  else techUnits requestedDirectory e.1 e.2.

Lemma addDetectedDirs_eq tech wds acc :
  addDetectedDirs E tech wds acc
  = acc ++ map (scanOfDir tech) (rangeDirs E (map_to_list wds)).
Proof.
  unfold addDetectedDirs.
  generalize (rangeDirs E (map_to_list wds)) as l. intros l. revert acc.
  induction l as [|[wd ds] l IH]; intros acc; simpl.
  - by rewrite app_nil_r.
  - rewrite IH. by rewrite <- app_assoc.
Qed.

Lemma addTech_eq d acc e :
  addTech E d acc e = acc ++ entryUnits d e.
Proof.
  destruct e as [tech wds]. unfold addTech, entryUnits, techUnits. simpl.
  case_bool_decide; [by rewrite app_nil_r|].
  rewrite addDetectedDirs_eq.
  case_bool_decide; simpl; [by rewrite <- app_assoc|done].
Qed.

Lemma foldl_addTech d l acc :
  foldl (addTech E d) acc l = acc ++ concat (map (entryUnits d) l).
Proof.
  revert acc. induction l as [|e l IH]; intros acc; simpl.
  - by rewrite app_nil_r.
  - rewrite IH, addTech_eq. by rewrite <- app_assoc.
Qed.

Lemma addDetection_eq d m acc :
  addDetection E d m acc
  = acc ++ concat (map (entryUnits d) (rangeTechs E (map_to_list m))).
Proof. apply foldl_addTech. Qed.

Lemma techUnits_tech d tech wds :
  Forall (λ u, ScanTechnology u = tech) (techUnits d tech wds).
Proof.
  unfold techUnits. apply Forall_app. split.
  - case_bool_decide; by repeat constructor.
  - apply Forall_forall. intros u Hu.
    apply list_elem_of_fmap in Hu as (x & -> & _). done.
Qed.

Lemma entryUnits_tech d e :
  Forall (λ u, ScanTechnology u = e.1 ∧ e.1 ≠ Dotnet) (entryUnits d e).
Proof.
  unfold entryUnits. case_bool_decide; [constructor|].
  eapply Forall_impl; [apply techUnits_tech|]. naive_solver.
Qed.

Lemma techUnits_empty d tech :
  techUnits d tech ∅ = [newScan d tech []].
Proof.
  unfold techUnits. rewrite map_to_list_empty.
  rewrite (perm_nil_inv _ (rangeDirs_perm E)). done.
Qed.

Lemma techUnits_singleton d tech wd ds :
  techUnits d tech {[ wd := ds ]} = [newScan wd tech ds].
Proof.
  unfold techUnits. rewrite map_size_singleton, map_to_list_singleton. simpl.
  assert (rangeDirs E [(wd, ds)] = [(wd, ds)]) as ->
    by (apply Permutation_singleton_r, rangeDirs_perm).
  done.
Qed.

Lemma filter_all {A : Type} (P : A → Prop) `{!∀ x, Decision (P x)} (l : list A) :
  Forall P l → filter P l = l.
Proof.
  induction 1 as [|x l Hx _ IH]; [done|].
  rewrite filter_cons_True by done. by rewrite IH.
Qed.


Lemma filter_none {A : Type} (P : A → Prop) `{!∀ x, Decision (P x)} (l : list A) :
  Forall (λ x, ¬ P x) l → filter P l = [].
Proof.
  induction 1 as [|x l Hx _ IH]; [done|].
  by rewrite filter_cons_False.
Qed.

(** Among the units of a key-unique list of entries, those of technology
    [tech] are exactly the units of [tech]'s own entry. *)
Lemma filter_entries_tech d tech wds (l : list (Technology * gmap string (list string))) :
  NoDup l.*1 → (tech, wds) ∈ l → tech ≠ Dotnet →
  filter (λ u, ScanTechnology u = tech) (concat (map (entryUnits d) l))
  = techUnits d tech wds.
Proof.
  intros Hnd Hin Hne. induction l as [|[t w] l IH]; [by apply elem_of_nil in Hin|].
  simpl in *. apply NoDup_cons in Hnd as [Hfresh Hnd].
  rewrite filter_app.
  apply elem_of_cons in Hin as [Heq|Hin].
  - injection Heq as <- <-.
    unfold entryUnits at 1. simpl. rewrite bool_decide_false by done.
    rewrite (filter_all _ _ (techUnits_tech d tech wds)).
    rewrite filter_none; [by rewrite app_nil_r|].
    apply Forall_concat, Forall_forall. intros us Hus.
    apply list_elem_of_fmap in Hus as ([t' w'] & -> & Hin').
    eapply Forall_impl; [apply entryUnits_tech|]. simpl.
    intros u [-> _] ->. apply Hfresh.
    apply list_elem_of_fmap. by exists (tech, w').
  - rewrite IH by done.
    rewrite filter_none; [done|].
    eapply Forall_impl; [apply entryUnits_tech|]. simpl.
    intros u [-> _] ->. apply Hfresh.
    apply list_elem_of_fmap. by exists (tech, wds).
Qed.

Lemma filter_addDetection_tech d m tech wds :
  m !! tech = Some wds → tech ≠ Dotnet →
  filter (λ u, ScanTechnology u = tech) (addDetection E d m [])
  = techUnits d tech wds.
Proof.
  intros Hm Hne. rewrite addDetection_eq. simpl.
  apply filter_entries_tech; [| |done].
  - rewrite (rangeTechs_perm E). apply NoDup_fst_map_to_list.
  - rewrite (rangeTechs_perm E). by apply elem_of_map_to_list.
Qed.




End Scheduling.

(** ** The scheduler as a whole *)

Section Scheduler.

Variable E : Collaborators.

(** The detector's answer for one requested directory, in state [s]. *)
Definition detection (s : State) (isRecursive : bool) (d : string)
  : result TechMap :=
  DetectTechnologiesDescriptors E d isRecursive (technologies (params s))
    (getRequestedDescriptors (params s))
    (getExcludePattern E (params s) isRecursive) (world s).

(** The units one requested directory contributes; a failed detection
    contributes none. *)
Definition dirUnits (s : State) (isRecursive : bool) (d : string)
  : list ScaScanResult :=
  match detection s isRecursive d with
  | Ok m => addDetection E d m []
  | Err _ => []
  end.

Lemma forRequestedDirectories_eq ds isRecursive acc s :
  forRequestedDirectories E ds isRecursive acc s
  = (acc ++ concat (map (dirUnits s isRecursive) ds),
     mkState (world s) (params s)
             (trace s ++ map (λ d, EvDetect d isRecursive) ds)).
Proof.
  revert acc s. induction ds as [|d ds IH]; intros acc s.
  - destruct s. simpl. by rewrite !app_nil_r.
  - cbn [forRequestedDirectories]. unfold detect. munfold.
    fold (detection s isRecursive d).
    unfold dirUnits at 1. cbn [map concat].
    destruct (detection s isRecursive d) as [m|e].
    + rewrite IH. cbn [world params trace]. f_equal.
      * rewrite (addDetection_eq E d m acc), (addDetection_eq E d m []).
        simpl. by rewrite <- app_assoc.
      * by rewrite <- app_assoc.
    + rewrite IH. cbn [world params trace]. f_equal.
      by rewrite <- app_assoc.
Qed.

Definition requestedDirectories (currentWorkingDir : string) (s : State)
  : list string :=
  (getRequestedDirectoriesToScan E currentWorkingDir (params s)).1.

Definition isRecursive (currentWorkingDir : string) (s : State) : bool :=
  (getRequestedDirectoriesToScan E currentWorkingDir (params s)).2.

Lemma getScaScansToPreform_eq cwd0 s :
  getScaScansToPreform E cwd0 s
  = (concat (map (dirUnits s (isRecursive cwd0 s)) (requestedDirectories cwd0 s)),
     mkState (world s) (params s)
             (trace s ++ map (λ d, EvDetect d (isRecursive cwd0 s))
                             (requestedDirectories cwd0 s))).
Proof.
  unfold getScaScansToPreform, requestedDirectories, isRecursive. munfold.
  destruct (getRequestedDirectoriesToScan E cwd0 (params s)) as [ds r].
  by rewrite forRequestedDirectories_eq.
Qed.

(** Scheduling reads the world but leaves it and the parameters alone. *)
Lemma getScaScansToPreform_frame cwd0 s :
  world (getScaScansToPreform E cwd0 s).2 = world s
  ∧ params (getScaScansToPreform E cwd0 s).2 = params s.
Proof. by rewrite getScaScansToPreform_eq. Qed.

(** C4 (amended): when the detector answers, for a requested directory, with
    a technology other than Dotnet mapped to no working directory, the units
    scheduled for that directory contain exactly one unit of that
    technology: rooted at the requested directory, with no descriptors. *)
Theorem getScaScansToPreform_requested_undetected
    (cwd0 : string) (s : State) (d : string) (m : TechMap) (tech : Technology) :
  d ∈ requestedDirectories cwd0 s →
  detection s (isRecursive cwd0 s) d = Ok m →
  m !! tech = Some ∅ →
  tech ≠ Dotnet →
  (∃ before after,
     (getScaScansToPreform E cwd0 s).1
     = before ++ addDetection E d m [] ++ after)
  ∧ filter (λ u, ScanTechnology u = tech) (addDetection E d m [])
    = [newScan d tech []].
Proof.
  intros Hd Hdet Hm Hne. split.
  - rewrite getScaScansToPreform_eq. cbn [fst].
    apply list_elem_of_split in Hd as (l1 & l2 & ->).
    exists (concat (map (dirUnits s (isRecursive cwd0 s)) l1)),
           (concat (map (dirUnits s (isRecursive cwd0 s)) l2)).
    rewrite map_app, concat_app. cbn [map concat].
    unfold dirUnits at 2. by rewrite Hdet.
  - rewrite (filter_addDetection_tech E d m tech ∅) by done.
    apply techUnits_empty.
Qed.


End Scheduler.

(** ** The scheduler on concrete detections *)

Definition requestedState (techs : list string) : State :=
  mkState (mkWorld "/repo" {[ "/repo" ]})
          (mkAuditParams [] techs [] "" "" false "https://xray.example" false []
                         "" "3.80.0" false "")
          [].

Definition undetected (tech : Technology) : TechMap := {[ tech := ∅ ]}.

Lemma getScaScansToPreform_requested_undetected_witness :
  (∃ before after,
     (getScaScansToPreform
        (demoCollaborators (Ok (undetected Npm)) noConf ([], [], None))
        "/repo" (requestedState ["npm"])).1
     = before
       ++ addDetection (demoCollaborators (Ok (undetected Npm)) noConf ([], [], None))
            "/repo" (undetected Npm) []
       ++ after)
  ∧ filter (λ u, ScanTechnology u = Npm)
      (addDetection (demoCollaborators (Ok (undetected Npm)) noConf ([], [], None))
         "/repo" (undetected Npm) [])
    = [newScan "/repo" Npm []].
Proof.
  apply (getScaScansToPreform_requested_undetected
           (demoCollaborators (Ok (undetected Npm)) noConf ([], [], None))
           "/repo" (requestedState ["npm"]) "/repo" (undetected Npm) Npm).
  - apply (bool_decide_unpack _). vm_compute. exact I.
  - reflexivity.
  - reflexivity.
  - discriminate.
Defined.

(** C4 (as stated) fails for Dotnet: requested, reported with no working
    directory, and yet no unit is scheduled for it. *)
Lemma getScaScansToPreform_drops_requested_Dotnet :
  "/repo" ∈ requestedDirectories
              (demoCollaborators (Ok (undetected Dotnet)) noConf ([], [], None))
              "/repo" (requestedState ["dotnet"])
  ∧ detection (demoCollaborators (Ok (undetected Dotnet)) noConf ([], [], None))
      (requestedState ["dotnet"]) true "/repo" = Ok (undetected Dotnet)
  ∧ undetected Dotnet !! Dotnet = Some ∅
  ∧ (getScaScansToPreform
       (demoCollaborators (Ok (undetected Dotnet)) noConf ([], [], None))
       "/repo" (requestedState ["dotnet"])).1 = [].
Proof.
  split_and!.
  - apply (bool_decide_unpack _). vm_compute. exact I.
  - reflexivity.
  - reflexivity.
  - vm_compute. reflexivity.
Qed.

(** ** The resolution repository resolver *)

Definition withTrace (s : State) (evs : list Event) : State :=
  mkState (world s) (params s) (trace s ++ evs).

(** Where the lookup of [SetResolutionRepoIfExists] ends for a technology:
    its own configuration file, for NuGet the Dotnet file when its own is
    missing, no file, or a failed search. *)
Inductive ConfSearch : Type :=
  | ConfFound (configFilePath : string)
  | ConfAbsent
  | ConfSearchFailed (e : error).

Section Resolver.

Variable E : Collaborators.

Definition findConf (tech : Technology) (w : World) : ConfSearch :=
  match GetProjectConfFilePath E (techType tech) w with
  | (_, _, Some e) => ConfSearchFailed e
  | (path, true, None) => ConfFound path
  | (_, false, None) =>
      if bool_decide (tech = Nuget) then
        match GetProjectConfFilePath E (techType Dotnet) w with
        | (_, _, Some e) => ConfSearchFailed e
        | (path, true, None) => ConfFound path
        | (_, false, None) => ConfAbsent
        end
      else ConfAbsent
  end.

(** The lookups made until the search ends. *)
Definition confLookups (tech : Technology) (w : World) : list Event :=
  match GetProjectConfFilePath E (techType tech) w with
  | (_, false, None) =>
      if bool_decide (tech = Nuget)
      then [EvConfLookup (techType tech); EvConfLookup (techType Dotnet)]
      else [EvConfLookup (techType tech)]
  | _ => [EvConfLookup (techType tech)]
  end.

Lemma useResolverConfig_eq tech path s :
  useResolverConfig E tech path s
  = match ReadResolutionOnlyConfiguration E path (world s) with
    | Err e =>
        (Some (errorString ("failed while reading " +:+ Technology_String tech
                            +:+ ".yaml config file: " +:+ Error e)),
         withTrace s [EvConfRead path])
    | Ok repoConfig =>
        match repoServer repoConfig with
        | Err e =>
            (Some (errorString ("failed getting server details: " +:+ Error e)),
             withTrace s [EvConfRead path])
        | Ok details =>
            (None,
             mkState (world s)
                     (SetDepsRepo (TargetRepo repoConfig)
                        (SetServerDetails details (params s)))
                     (trace s ++ [EvConfRead path]))
        end
    end.
Proof.
  unfold useResolverConfig, readConf. munfold.
  destruct (ReadResolutionOnlyConfiguration E path (world s)) as [cfg|e]; [|done].
  destruct (repoServer cfg); done.
Qed.

Lemma SetResolutionRepoIfExists_skip tech s :
  depsRepo (params s) ≠ "" ∨ ignoreConfigFile (params s) = true →
  SetResolutionRepoIfExists E tech s = (None, s).
Proof.
  intros H. unfold SetResolutionRepoIfExists. munfold.
  destruct H as [H| ->].
  - by rewrite bool_decide_true.
  - by rewrite orb_true_r.
Qed.

Lemma SetResolutionRepoIfExists_eq tech s :
  depsRepo (params s) = "" → ignoreConfigFile (params s) = false →
  SetResolutionRepoIfExists E tech s
  = match findConf tech (world s) with
    | ConfSearchFailed e =>
        (searchErr tech e, withTrace s (confLookups tech (world s)))
    | ConfAbsent => (None, withTrace s (confLookups tech (world s)))
    | ConfFound path =>
        useResolverConfig E tech path (withTrace s (confLookups tech (world s)))
    end.
Proof.
  intros Hrepo Hign.
  unfold SetResolutionRepoIfExists, findConf, confLookups, lookupConf, withTrace.
  munfold. rewrite Hrepo, Hign.
  rewrite bool_decide_false by (intros H; by apply H). simpl.
  destruct (GetProjectConfFilePath E (techType tech) (world s))
    as [[path ex] [e|]]; destruct ex; simpl; try done.
  case_bool_decide; [|done].
  destruct (GetProjectConfFilePath E ProjDotnet (world s))
    as [[path' ex'] [e'|]] eqn:Hdotnet; destruct ex'; simpl; rewrite Hdotnet;
    simpl; by rewrite <- app_assoc.
Qed.

(** C8: when a technology's own configuration file is missing, NuGet goes
    on to look up the Dotnet file and settles on what that lookup says;
    every other technology stops after its own lookup, with no error and
    the parameters untouched. *)
Theorem SetResolutionRepoIfExists_Dotnet_fallback
    (tech : Technology) (s : State) (path : string) :
  depsRepo (params s) = "" →
  ignoreConfigFile (params s) = false →
  GetProjectConfFilePath E (techType tech) (world s) = (path, false, None) →
  if decide (tech = Nuget) then
    match GetProjectConfFilePath E (techType Dotnet) (world s) with
    | (_, _, Some e) =>
        SetResolutionRepoIfExists E tech s
        = (searchErr Nuget e,
           withTrace s [EvConfLookup ProjNuget; EvConfLookup ProjDotnet])
    | (_, false, None) =>
        SetResolutionRepoIfExists E tech s
        = (None, withTrace s [EvConfLookup ProjNuget; EvConfLookup ProjDotnet])
    | (dotnetPath, true, None) =>
        SetResolutionRepoIfExists E tech s
        = useResolverConfig E Nuget dotnetPath
            (withTrace s [EvConfLookup ProjNuget; EvConfLookup ProjDotnet])
    end
  else
    SetResolutionRepoIfExists E tech s
    = (None, withTrace s [EvConfLookup (techType tech)]).
Proof.
  intros Hrepo Hign Hown.
  rewrite SetResolutionRepoIfExists_eq by done.
  unfold findConf, confLookups. rewrite Hown.
  destruct (decide (tech = Nuget)) as [->|Hne].
  - rewrite bool_decide_true by done.
    destruct (GetProjectConfFilePath E (techType Dotnet) (world s))
      as [[path' ex'] [e'|]]; by destruct ex'.
  - by rewrite bool_decide_false.
Qed.

(** C7: with the lookup enabled, a configuration file that is found is read
    and its server details and target repository are written into the
    parameters, with no error; a failed search, read or server-details
    lookup gives an error and leaves the parameters alone; no file at all
    gives no error and leaves the parameters alone.  The tree builder runs
    in the state the resolver leaves behind. *)
Theorem SetResolutionRepoIfExists_found_or_absent (tech : Technology) (s : State) :
  depsRepo (params s) = "" →
  ignoreConfigFile (params s) = false →
  match findConf tech (world s) with
  | ConfFound path =>
      match ReadResolutionOnlyConfiguration E path (world s) with
      | Ok repoConfig =>
          match repoServer repoConfig with
          | Ok details =>
              (SetResolutionRepoIfExists E tech s).1 = None
              ∧ serverDetails (params (SetResolutionRepoIfExists E tech s).2)
                = details
              ∧ depsRepo (params (SetResolutionRepoIfExists E tech s).2)
                = TargetRepo repoConfig
          | Err e =>
              is_Some (SetResolutionRepoIfExists E tech s).1
              ∧ params (SetResolutionRepoIfExists E tech s).2 = params s
          end
      | Err e =>
          is_Some (SetResolutionRepoIfExists E tech s).1
          ∧ params (SetResolutionRepoIfExists E tech s).2 = params s
      end
  | ConfAbsent =>
      (SetResolutionRepoIfExists E tech s).1 = None
      ∧ params (SetResolutionRepoIfExists E tech s).2 = params s
  | ConfSearchFailed e =>
      is_Some (SetResolutionRepoIfExists E tech s).1
      ∧ params (SetResolutionRepoIfExists E tech s).2 = params s
  end
  ∧ match params_ServerDetails E (params s) with
    | Ok sd =>
        match (SetResolutionRepoIfExists E tech s).1 with
        | None =>
            GetTechDependencyTree E tech s
            = ('(fullDependencyTrees, uniqueDeps, err) ←
                 buildDependencyTree E sd tech;
               if bool_decide (err ≠ None) || bool_decide (length uniqueDeps = 0)
               then mret (None, fullDependencyTrees, err)
               else
                 let '(flatTree, err) := createFlatTree uniqueDeps in
                 mret (flatTree, fullDependencyTrees, err))
                (SetResolutionRepoIfExists E tech s).2
        | Some e =>
            GetTechDependencyTree E tech s
            = ((None, [], Some e), (SetResolutionRepoIfExists E tech s).2)
        end
    | Err e => GetTechDependencyTree E tech s = ((None, [], Some e), s)
    end.
Proof.
  intros Hrepo Hign. split.
  - rewrite SetResolutionRepoIfExists_eq by done.
    destruct (findConf tech (world s)) as [path| |e]; simpl; [|done|by eauto].
    rewrite useResolverConfig_eq. simpl.
    destruct (ReadResolutionOnlyConfiguration E path (world s)) as [cfg|e];
      simpl; [|by eauto].
    destruct (repoServer cfg); simpl; by eauto.
  - unfold GetTechDependencyTree at 1 2 3. munfold.
    destruct (params_ServerDetails E (params s)) as [sd|e]; [|done].
    destruct (SetResolutionRepoIfExists E tech s) as [[e|] s']; done.
Qed.

End Resolver.

(** ** The resolver on concrete configurations *)

Definition confOf (pt : ProjectType) (path : string) (q : ProjectType)
  : string * bool * option error :=
  if bool_decide (q = pt) then (path, true, None) else ("", false, None).

Definition npmConfigured : Collaborators :=
  demoCollaborators (Ok ∅) (confOf ProjNpm "/repo/.jfrog/projects/npm.yaml")
                    ([], [], None).

Definition dotnetConfigured : Collaborators :=
  demoCollaborators (Ok ∅) (confOf ProjDotnet "/repo/.jfrog/projects/dotnet.yaml")
                    ([], [], None).

Lemma SetResolutionRepoIfExists_found_or_absent_witness :
  (SetResolutionRepoIfExists npmConfigured Npm (requestedState ["npm"])).1 = None
  ∧ serverDetails
      (params (SetResolutionRepoIfExists npmConfigured Npm (requestedState ["npm"])).2)
    = "https://artifactory.example"
  ∧ depsRepo
      (params (SetResolutionRepoIfExists npmConfigured Npm (requestedState ["npm"])).2)
    = "libs-virtual".
Proof.
  exact (proj1 (SetResolutionRepoIfExists_found_or_absent
                  npmConfigured Npm (requestedState ["npm"])
                  eq_refl eq_refl)).
Defined.

Lemma SetResolutionRepoIfExists_Dotnet_fallback_witness :
  SetResolutionRepoIfExists dotnetConfigured Nuget (requestedState ["nuget"])
  = useResolverConfig dotnetConfigured Nuget "/repo/.jfrog/projects/dotnet.yaml"
      (withTrace (requestedState ["nuget"])
                 [EvConfLookup ProjNuget; EvConfLookup ProjDotnet]).
Proof.
  exact (SetResolutionRepoIfExists_Dotnet_fallback
           dotnetConfigured Nuget (requestedState ["nuget"]) ""
           eq_refl eq_refl eq_refl).
Defined.

(** ** Working-directory changes in the trace *)

Definition chdirs (t : list Event) : list string :=
  omap (λ e, match e with EvChdir d => Some d | _ => None end) t.

Lemma chdirs_app t1 t2 : chdirs (t1 ++ t2) = chdirs t1 ++ chdirs t2.
Proof. apply omap_app. Qed.

(** A computation is [quiet] when it never changes directory. *)
Definition quiet {A : Type} (m : M A) : Prop :=
  ∀ s, chdirs (trace (m s).2) = chdirs (trace s).

Lemma quiet_ret {A : Type} (a : A) : quiet (mret a).
Proof. by intros s. Qed.

Lemma quiet_bind {A B : Type} (m : M A) (k : A → M B) :
  quiet m → (∀ a, quiet (k a)) → quiet (m ≫= k).
Proof.
  intros Hm Hk s. unfold mbind, M_bind.
  specialize (Hm s). destruct (m s) as [a s']. simpl in Hm.
  by rewrite Hk.
Qed.

Lemma quiet_getWorld : quiet getWorld.
Proof. by intros s. Qed.

Lemma quiet_getParams : quiet getParams.
Proof. by intros s. Qed.

Lemma quiet_putWorld w : quiet (putWorld w).
Proof. by intros s. Qed.

Lemma quiet_modifyParams f : quiet (modifyParams f).
Proof. by intros s. Qed.

Lemma quiet_emit e : (∀ d, e ≠ EvChdir d) → quiet (emit e).
Proof.
  intros He s. unfold emit. simpl. rewrite chdirs_app.
  destruct e; simpl; try by rewrite app_nil_r.
  by destruct (He dir).
Qed.

Lemma bind_chdirs {A B : Type} (m : M A) (k : A → M B) (l : list string) :
  (∀ s, chdirs (trace (m s).2) = chdirs (trace s) ++ l) →
  (∀ a, quiet (k a)) →
  ∀ s, chdirs (trace ((m ≫= k) s).2) = chdirs (trace s) ++ l.
Proof.
  intros Hm Hk s. unfold mbind, M_bind.
  specialize (Hm s). destruct (m s) as [a s']. simpl in Hm.
  by rewrite Hk.
Qed.

Create HintDb quiet.
#[local] Hint Resolve quiet_ret quiet_getWorld quiet_getParams quiet_putWorld
  quiet_modifyParams : quiet.

(** Walks through a computation built from binds and case distinctions. *)
Ltac quiet_step :=
  match goal with
  | |- quiet (_ ≫= _) => apply quiet_bind; [|intros ?]
  | |- quiet (emit _) => apply quiet_emit; intros ?; discriminate
  | |- quiet (match ?x with _ => _ end) => destruct x
  | |- quiet (let '_ := ?x in _) => destruct x
  | |- quiet _ => solve [eauto with quiet]
  end.
Ltac quiet := repeat quiet_step.

Section Execution.

Variable E : Collaborators.

Lemma os_Chdir_eq dir s :
  os_Chdir dir s
  = if bool_decide (resolvePath (cwd (world s)) dir ∈ dirs (world s))
    then (None, mkState (mkWorld (resolvePath (cwd (world s)) dir) (dirs (world s)))
                        (params s) (trace s ++ [EvChdir dir]))
    else (Some (errorString ("chdir " +:+ dir +:+ ": no such file or directory")),
          withTrace s [EvChdir dir]).
Proof.
  unfold os_Chdir. munfold. by case_bool_decide.
Qed.

Lemma os_Chdir_chdirs dir s :
  chdirs (trace (os_Chdir dir s).2) = chdirs (trace s) ++ [dir].
Proof.
  rewrite os_Chdir_eq. case_bool_decide; simpl; by rewrite chdirs_app.
Qed.

Lemma quiet_useResolverConfig tech path : quiet (useResolverConfig E tech path).
Proof. unfold useResolverConfig, readConf. quiet. Qed.

Lemma quiet_SetResolutionRepoIfExists tech : quiet (SetResolutionRepoIfExists E tech).
Proof.
  unfold SetResolutionRepoIfExists, lookupConf.
  quiet; apply quiet_useResolverConfig.
Qed.

Lemma quiet_callBuilder tech build : quiet (callBuilder tech build).
Proof. unfold callBuilder. quiet. Qed.

Lemma quiet_buildDependencyTree sd tech : quiet (buildDependencyTree E sd tech).
Proof.
  unfold buildDependencyTree. apply quiet_bind; [quiet|]. intros p.
  destruct tech; first [apply quiet_callBuilder | apply quiet_ret].
Qed.

Lemma quiet_GetTechDependencyTree tech : quiet (GetTechDependencyTree E tech).
Proof.
  unfold GetTechDependencyTree.
  quiet; first [apply quiet_SetResolutionRepoIfExists
               | apply quiet_buildDependencyTree].
Qed.

Lemma quiet_runScaWithTech tech sd flat full :
  quiet (runScaWithTech E tech sd flat full).
Proof. unfold runScaWithTech. quiet. Qed.

Lemma quiet_addThirdPartyDependenciesToParams tech flat full :
  quiet (addThirdPartyDependenciesToParams E tech flat full).
Proof. unfold addThirdPartyDependenciesToParams. quiet. Qed.

(** One unit changes directory once: into its own working directory. *)
Lemma executeScaScan_chdirs sd scan s :
  chdirs (trace (executeScaScan E sd scan s).2)
  = chdirs (trace s) ++ [WorkingDirectory scan].
Proof.
  unfold executeScaScan. apply bind_chdirs; [apply os_Chdir_chdirs|].
  intros chdirErr.
  quiet; first [apply quiet_GetTechDependencyTree
               | apply quiet_runScaWithTech
               | apply quiet_addThirdPartyDependenciesToParams].
Qed.

End Execution.

(** ** The scan loop *)

Definition succeeded (outcomes : list (ScaScanResult * option error))
  : list ScaScanResult :=
  omap (λ o, match o.2 with None => Some o.1 | Some _ => None end) outcomes.

(** What a unit's outcome does to the running error of the loop. *)
Definition joinFailure (err : option error) (o : ScaScanResult * option error)
  : option error :=
  match o.2 with
  | Some e => errors_Join [err; Some (auditFailed (WorkingDirectory o.1) e)]
  | None => err
  end.

Lemma errors_Join_snd_Some err e : is_Some (errors_Join [err; Some e]).
Proof. destruct err; by eexists. Qed.

Lemma errors_Join_pair_None (a b : option error) :
  errors_Join [a; b] = None ↔ a = None ∧ b = None.
Proof.
  destruct a, b; (split; [intros H; cbv in H | intros [? ?]]); done.
Qed.

Lemma joinFailures_is_Some err outcomes :
  is_Some err → is_Some (foldl joinFailure err outcomes).
Proof.
  revert err. induction outcomes as [|[u [e|]] os IH]; intros err Herr; simpl.
  - done.
  - apply IH. unfold joinFailure. simpl. apply errors_Join_snd_Some.
  - by apply IH.
Qed.

Lemma joinFailures_None outcomes :
  foldl joinFailure None outcomes = None ↔ Forall (λ o, o.2 = None) outcomes.
Proof.
  induction outcomes as [|[u [e|]] os IH]; simpl.
  - split; [constructor|done].
  - split.
    + intros H.
      destruct (joinFailures_is_Some (joinFailure None (u, Some e)) os) as [x Hx].
      { unfold joinFailure. simpl. apply errors_Join_snd_Some. }
      congruence.
    + intros H. by apply Forall_cons in H as [? _].
  - unfold joinFailure at 2. simpl. rewrite IH. split.
    + intros H. by constructor.
    + intros H. by apply Forall_cons in H as [_ ?].
Qed.

Section Loop.

Variable E : Collaborators.

(** The units run one after the other, each with its outcome: the unit as
    [executeScaScan] left it and that call's error. *)
Fixpoint runUnits (serverDetails : ServerDetails) (scans : list ScaScanResult)
  : M (list (ScaScanResult * option error)) :=
  match scans with
  | [] => mret []
  | scan :: rest =>
      o ← executeScaScan E serverDetails scan;
      os ← runUnits serverDetails rest;
      mret (o :: os)
  end.

Lemma executeScaScan_WorkingDirectory sd scan s :
  WorkingDirectory (executeScaScan E sd scan s).1.1 = WorkingDirectory scan.
Proof.
  unfold executeScaScan. munfold.
  repeat (case_match; simpl; try done).
Qed.

Lemma scanLoop_eq sd scans err results s :
  scanLoop E sd scans err results s
  = ((results ++ succeeded (runUnits sd scans s).1,
      foldl joinFailure err (runUnits sd scans s).1),
     (runUnits sd scans s).2).
Proof.
  revert err results s. induction scans as [|scan rest IH]; intros err results s.
  - simpl. munfold. by rewrite app_nil_r.
  - cbn [scanLoop runUnits]. munfold.
    destruct (executeScaScan E sd scan s) as [[scan' [e|]] s'] eqn:Hex.
    + rewrite IH. destruct (runUnits sd rest s') as [os s'']. done.
    + rewrite IH. destruct (runUnits sd rest s') as [os s'']. simpl.
      by rewrite <- app_assoc.
Qed.

Lemma runUnits_WorkingDirectory sd scans s :
  map (λ o, WorkingDirectory o.1) (runUnits sd scans s).1
  = map WorkingDirectory scans.
Proof.
  revert s. induction scans as [|scan rest IH]; intros s; [done|].
  cbn [runUnits]. munfold.
  pose proof (executeScaScan_WorkingDirectory sd scan s) as Hwd.
  destruct (executeScaScan E sd scan s) as [o s'].
  specialize (IH s'). destruct (runUnits sd rest s') as [os s''].
  simpl in *. by rewrite Hwd, IH.
Qed.

Lemma runUnits_chdirs sd scans s :
  chdirs (trace (runUnits sd scans s).2)
  = chdirs (trace s) ++ map WorkingDirectory scans.
Proof.
  revert s. induction scans as [|scan rest IH]; intros s.
  - simpl. by rewrite app_nil_r.
  - cbn [runUnits]. munfold.
    pose proof (executeScaScan_chdirs E sd scan s) as Hch.
    destruct (executeScaScan E sd scan s) as [o s'].
    specialize (IH s'). destruct (runUnits sd rest s') as [os s''].
    simpl in *. rewrite IH, Hch. by rewrite <- app_assoc.
Qed.

(** [runScaScan] once the preparation went through. *)
Lemma runScaScan_eq results s sd j :
  cwd (world s) ∈ dirs (world s) →
  params_ServerDetails E (params s) = Ok sd →
  (getScaScansToPreform E (cwd (world s)) s).1 ≠ [] →
  GetJsonIndent E (getScaScansToPreform E (cwd (world s)) s).1 = Ok j →
  runScaScan E results s
  = ('(results', err) ←
       scanLoop E sd (getScaScansToPreform E (cwd (world s)) s).1 None results;
     restoreErr ← os_Chdir (cwd (world s));
     mret (results', errors_Join [err; restoreErr]))
      (getScaScansToPreform E (cwd (world s)) s).2.
Proof.
  intros Hcwd Hsd Hscans Hjson.
  unfold runScaScan at 1, os_Getwd. munfold.
  rewrite bool_decide_true by done. rewrite Hsd.
  destruct (getScaScansToPreform E (cwd (world s)) s) as [scans s1].
  simpl in *. rewrite Hjson.
  rewrite bool_decide_false; [done|].
  by destruct scans.
Qed.

End Loop.

(** ** The orchestrator *)

Section Orchestration.

Variable E : Collaborators.

Lemma chdirs_detects (ds : list string) (r : bool) :
  chdirs (map (λ d, EvDetect d r) ds) = [].
Proof. induction ds as [|d ds IH]; [done|]. simpl. exact IH. Qed.

Lemma getScaScansToPreform_chdirs cwd0 s :
  chdirs (trace (getScaScansToPreform E cwd0 s).2) = chdirs (trace s).
Proof.
  rewrite getScaScansToPreform_eq. simpl.
  by rewrite chdirs_app, chdirs_detects, app_nil_r.
Qed.

Lemma resolvePath_abs base p : isAbs p = true → resolvePath base p = p.
Proof. unfold resolvePath. by intros ->. Qed.

(** The loop and the deferred restoration, in terms of the units' outcomes. *)
Lemma runScaScan_loop results s sd j :
  cwd (world s) ∈ dirs (world s) →
  params_ServerDetails E (params s) = Ok sd →
  (getScaScansToPreform E (cwd (world s)) s).1 ≠ [] →
  GetJsonIndent E (getScaScansToPreform E (cwd (world s)) s).1 = Ok j →
  let scans := (getScaScansToPreform E (cwd (world s)) s).1 in
  let s1 := (getScaScansToPreform E (cwd (world s)) s).2 in
  let outcomes := (runUnits E sd scans s1).1 in
  let s2 := (runUnits E sd scans s1).2 in
  let restoreErr := (os_Chdir (cwd (world s)) s2).1 in
  runScaScan E results s
  = ((results ++ succeeded outcomes,
      errors_Join [foldl joinFailure None outcomes; restoreErr]),
     (os_Chdir (cwd (world s)) s2).2).
Proof.
  intros Hcwd Hsd Hscans Hjson scans s1 outcomes s2 restoreErr.
  rewrite (runScaScan_eq E results s sd j) by done. munfold.
  fold scans s1. rewrite scanLoop_eq. fold outcomes s2.
  unfold restoreErr. by destruct (os_Chdir (cwd (world s)) s2).
Qed.

(** C1 (amended): when the working directory is read, the server details
    are had and the list of scheduled units is rendered, every scheduled
    unit is run, in order, whatever the outcome of the units before it;
    the units that succeeded, and only those, are appended to the results;
    the errors of the units that failed are joined, one by one, into the
    error that is returned, together with the outcome of restoring the
    working directory, which is attempted when at least one unit was
    scheduled; that error is nil exactly when every unit succeeded and the
    restoration did not fail. *)
Theorem runScaScan_attempts_every_unit
    (results : list ScaScanResult) (s : State) (sd : ServerDetails) :
  cwd (world s) ∈ dirs (world s) →
  params_ServerDetails E (params s) = Ok sd →
  ((getScaScansToPreform E (cwd (world s)) s).1 ≠ [] →
   ∃ j, GetJsonIndent E (getScaScansToPreform E (cwd (world s)) s).1 = Ok j) →
  let scans := (getScaScansToPreform E (cwd (world s)) s).1 in
  let s1 := (getScaScansToPreform E (cwd (world s)) s).2 in
  let outcomes := (runUnits E sd scans s1).1 in
  let s2 := (runUnits E sd scans s1).2 in
  let restore :=
    if bool_decide (scans = []) then (None, s2)
    else os_Chdir (cwd (world s)) s2 in
  runScaScan E results s
  = ((results ++ succeeded outcomes,
      errors_Join [foldl joinFailure None outcomes; restore.1]),
     restore.2)
  ∧ map (λ o, WorkingDirectory o.1) outcomes = map WorkingDirectory scans
  ∧ chdirs (trace s2) = chdirs (trace s) ++ map WorkingDirectory scans
  ∧ (foldl joinFailure None outcomes = None
     ↔ Forall (λ o, o.2 = None) outcomes)
  ∧ ((runScaScan E results s).1.2 = None
     ↔ Forall (λ o, o.2 = None) outcomes ∧ restore.1 = None).
Proof.
  intros Hcwd Hsd Hjson scans s1 outcomes s2 restore.
  assert (runScaScan E results s
          = ((results ++ succeeded outcomes,
              errors_Join [foldl joinFailure None outcomes; restore.1]),
             restore.2)) as Hrun.
  { destruct (decide (scans = [])) as [Hnil|Hsome].
    - unfold restore, outcomes, s2. rewrite (bool_decide_true _ Hnil).
      unfold runScaScan, os_Getwd. munfold.
      rewrite bool_decide_true by exact Hcwd. rewrite Hsd.
      subst scans s1. clear Hjson.
      destruct (getScaScansToPreform E (cwd (world s)) s) as [a s'].
      simpl in Hnil. subst a. simpl. by rewrite app_nil_r.
    - destruct (Hjson Hsome) as [j Hj].
      pose proof (runScaScan_loop results s sd j Hcwd Hsd Hsome Hj) as Hloop.
      cbv zeta in Hloop. unfold restore. rewrite (bool_decide_false _ Hsome).
      exact Hloop. }
  clearbody restore. split_and!.
  - exact Hrun.
  - apply runUnits_WorkingDirectory.
  - unfold s2. rewrite runUnits_chdirs. unfold s1.
    by rewrite getScaScansToPreform_chdirs.
  - apply joinFailures_None.
  - rewrite Hrun. cbn [fst snd]. rewrite <- joinFailures_None.
    apply errors_Join_pair_None.
Qed.

(** C2: once the preparation went through, the last thing [runScaScan] does
    is to change back to the working directory it captured; when that
    succeeds the process is in the captured directory again, whatever the
    units did, and when it fails the failure is joined into the returned
    error. *)
Theorem runScaScan_restores_cwd
    (results : list ScaScanResult) (s : State) (sd : ServerDetails) (j : string) :
  cwd (world s) ∈ dirs (world s) →
  isAbs (cwd (world s)) = true →
  params_ServerDetails E (params s) = Ok sd →
  (getScaScansToPreform E (cwd (world s)) s).1 ≠ [] →
  GetJsonIndent E (getScaScansToPreform E (cwd (world s)) s).1 = Ok j →
  let scans := (getScaScansToPreform E (cwd (world s)) s).1 in
  let s1 := (getScaScansToPreform E (cwd (world s)) s).2 in
  let loopErr := foldl joinFailure None (runUnits E sd scans s1).1 in
  let s2 := (runUnits E sd scans s1).2 in
  last (trace (runScaScan E results s).2) = Some (EvChdir (cwd (world s)))
  ∧ if bool_decide (cwd (world s) ∈ dirs (world s2))
    then cwd (world (runScaScan E results s).2) = cwd (world s)
         ∧ (runScaScan E results s).1.2 = errors_Join [loopErr; None]
    else ∃ e, (os_Chdir (cwd (world s)) s2).1 = Some e
              ∧ (runScaScan E results s).1.2 = errors_Join [loopErr; Some e]
              ∧ is_Some (runScaScan E results s).1.2.
Proof.
  intros Hcwd Habs Hsd Hscans Hjson scans s1 loopErr s2.
  pose proof (runScaScan_loop results s sd j Hcwd Hsd Hscans Hjson) as Hrun.
  subst scans s1 loopErr s2. cbv zeta in Hrun. rewrite Hrun. clear Hrun.
  cbn [fst snd].
  rewrite os_Chdir_eq, (resolvePath_abs _ _ Habs).
  case_bool_decide; cbn [fst snd trace world cwd withTrace].
  - rewrite last_snoc. split_and!; reflexivity.
  - rewrite last_snoc. split; [reflexivity|]. eexists.
    split_and!; [reflexivity|reflexivity|].
    apply errors_Join_snd_Some.
Qed.

End Orchestration.

(** ** One scan unit *)

Section Unit.

Variable E : Collaborators.

Lemma elem_of_direct_nodes (ns : list GraphNode) (s0 : gset string) (x : string) :
  x ∈ foldl (λ s node, {[ Id node ]} ∪ s) s0 ns ↔ x ∈ s0 ∨ x ∈ map Id ns.
Proof.
  revert s0. induction ns as [|n ns IH]; intros s0; simpl.
  - rewrite elem_of_nil. tauto.
  - rewrite IH, elem_of_union, elem_of_singleton, elem_of_cons. tauto.
Qed.

Lemma elem_of_direct_trees (trees : list GraphNode) (s0 : gset string) (x : string) :
  x ∈ foldl (λ s tree, foldl (λ s node, {[ Id node ]} ∪ s) s (Nodes tree)) s0 trees
  ↔ x ∈ s0 ∨ ∃ t, t ∈ trees ∧ x ∈ map Id (Nodes t).
Proof.
  revert s0. induction trees as [|t trees IH]; intros s0; simpl.
  - split; [by left|]. intros [?|(t & Ht & _)]; [done|].
    by apply elem_of_nil in Ht.
  - rewrite IH, elem_of_direct_nodes. split.
    + intros [[?|?]|(t' & Ht' & Hx)]; [by left| |].
      * right. exists t. split; [apply list_elem_of_here|done].
      * right. exists t'. split; [by apply list_elem_of_further|done].
    + intros [?|(t' & Ht' & Hx)]; [by left; left|].
      apply elem_of_cons in Ht' as [->|Ht'].
      * by left; right.
      * right. by exists t'.
Qed.

(** The direct dependencies of a forest: each identifier once. *)
Lemma getDirectDependenciesFromTree_spec (trees : list GraphNode) :
  NoDup (getDirectDependenciesFromTree E trees)
  ∧ ∀ x, x ∈ getDirectDependenciesFromTree E trees
         ↔ ∃ t, t ∈ trees ∧ x ∈ map Id (Nodes t).
Proof.
  unfold getDirectDependenciesFromTree. split; [apply ToSlice_NoDup|].
  intros x. rewrite elem_of_ToSlice, elem_of_direct_trees.
  rewrite elem_of_empty. tauto.
Qed.

Lemma shouldUseAllDependencies_iff (flag : bool) (tech : Technology) :
  shouldUseAllDependencies flag tech = true
  ↔ tech = Pip ∨ (flag = true ∧ tech = Npm).
Proof.
  unfold shouldUseAllDependencies.
  rewrite orb_true_iff, andb_true_iff, !bool_decide_eq_true. tauto.
Qed.

(** [executeScaScan] up to the answer of the tree builder. *)
Lemma executeScaScan_built sd scan s s1 flattenTree full techErr s2 :
  os_Chdir (WorkingDirectory scan) s = (None, s1) →
  GetTechDependencyTree E (ScanTechnology scan) s1
  = ((flattenTree, full, techErr), s2) →
  executeScaScan E sd scan s
  = match techErr with
    | Some e => ((scan, Some (buildFailed (ScanTechnology scan) e)), s2)
    | None =>
        match flattenTree with
        | Some flatTree =>
            if treeIsEmpty flattenTree
            then ((scan, CheckErrorf noDependenciesMsg), s2)
            else
              ('(scanResults, xrayErr) ←
                 runScaWithTech E (ScanTechnology scan) sd flatTree full;
               match xrayErr with
               | Some e => mret (scan, Some (xrayFailed (ScanTechnology scan) e))
               | None =>
                   _ ← addThirdPartyDependenciesToParams E (ScanTechnology scan)
                         flatTree full;
                   mret (mkScaScanResult (WorkingDirectory scan)
                           (ScanTechnology scan) (Descriptors scan)
                           (Some (bool_decide (1 < length full)))
                           (XrayResults scan ++ scanResults),
                         None)
               end) s2
        | None => ((scan, CheckErrorf noDependenciesMsg), s2)
        end
    end.
Proof.
  intros Hch Htree. unfold executeScaScan at 1.
  unfold mbind at 1, M_bind at 1. rewrite Hch. cbn beta iota.
  unfold mbind at 1, M_bind at 1. rewrite Htree. cbn beta iota.
  destruct techErr; [done|]. destruct flattenTree as [flat|]; [|done].
  by destruct (treeIsEmpty (Some flat)).
Qed.

Lemma GetTechDependencyTree_built tech s sd s1 full uniqueDeps berr s2 :
  params_ServerDetails E (params s) = Ok sd →
  SetResolutionRepoIfExists E tech s = (None, s1) →
  buildDependencyTree E sd tech s1 = ((full, uniqueDeps, berr), s2) →
  GetTechDependencyTree E tech s
  = if bool_decide (berr ≠ None) || bool_decide (length uniqueDeps = 0)
    then ((None, full, berr), s2)
    else ((Some (mkGraphNode "root" (map leaf uniqueDeps)), full, None), s2).
Proof.
  intros Hsd Hres Hbuild. unfold GetTechDependencyTree.
  unfold mbind at 1, M_bind at 1, getParams. rewrite Hsd. cbn beta iota.
  unfold mbind at 1, M_bind at 1. rewrite Hres. cbn beta iota.
  unfold mbind at 1, M_bind at 1. rewrite Hbuild. cbn beta iota.
  destruct (_ || _); [done|].
  by rewrite createFlatTree_eq.
Qed.

(** C6 (amended): a unit whose tree builder answers with an empty list of
    unique dependencies fails: with the "no dependencies were found"
    message when the builder reported no error, and with the
    tree-construction failure wrapping the builder's error when it
    reported one.  The unit is not added to the results, its error is
    joined into the running error, and the loop goes on with the units
    after it. *)
Theorem executeScaScan_no_dependencies
    (sd : ServerDetails) (scan : ScaScanResult) (s s1 s2 s3 : State)
    (sd' : ServerDetails) (full : list GraphNode) (berr : option error)
    (rest : list ScaScanResult) (err : option error)
    (results : list ScaScanResult) :
  os_Chdir (WorkingDirectory scan) s = (None, s1) →
  params_ServerDetails E (params s1) = Ok sd' →
  SetResolutionRepoIfExists E (ScanTechnology scan) s1 = (None, s2) →
  buildDependencyTree E sd' (ScanTechnology scan) s2 = ((full, [], berr), s3) →
  let unitErr :=
    match berr with
    | None => errorString noDependenciesMsg
    | Some e => buildFailed (ScanTechnology scan) e
    end in
  executeScaScan E sd scan s = ((scan, Some unitErr), s3)
  ∧ scanLoop E sd (scan :: rest) err results s
    = scanLoop E sd rest
        (errors_Join [err; Some (auditFailed (WorkingDirectory scan) unitErr)])
        results s3.
Proof.
  intros Hch Hsd Hres Hbuild unitErr.
  assert (executeScaScan E sd scan s = ((scan, Some unitErr), s3)) as Hex.
  { rewrite (executeScaScan_built sd scan s s1 None full berr s3 Hch).
    - unfold unitErr. by destruct berr.
    - rewrite (GetTechDependencyTree_built _ s1 sd' s2 full [] berr s3) by done.
      simpl. by rewrite orb_true_r. }
  split; [done|].
  cbn [scanLoop]. unfold mbind at 1, M_bind at 1. by rewrite Hex.
Qed.

(** C10: a unit that goes through records, for the applicability scan, the
    identifiers of the flat tree's children when the technology is Pip, or
    Npm with the third-party flag set, and the identifiers of the direct
    children of the full trees otherwise; either way each identifier once,
    appended to what was recorded before. *)
Theorem executeScaScan_records_dependencies
    (sd : ServerDetails) (scan : ScaScanResult) (s s1 s2 s3 : State)
    (flatTree : GraphNode) (full : list GraphNode) (res : list ScanResponse) :
  os_Chdir (WorkingDirectory scan) s = (None, s1) →
  GetTechDependencyTree E (ScanTechnology scan) s1
  = ((Some flatTree, full, None), s2) →
  Nodes flatTree ≠ [] →
  runScaWithTech E (ScanTechnology scan) sd flatTree full s2 = ((res, None), s3) →
  let useAll :=
    shouldUseAllDependencies (thirdPartyApplicabilityScan (params s3))
                             (ScanTechnology scan) in
  let recorded :=
    if useAll then getDirectDependenciesFromTree E [flatTree]
    else getDirectDependenciesFromTree E full in
  (executeScaScan E sd scan s).1.2 = None
  ∧ dependenciesForApplicabilityScan (params (executeScaScan E sd scan s).2)
    = dependenciesForApplicabilityScan (params s3) ++ recorded
  ∧ (useAll = true
     ↔ ScanTechnology scan = Pip
       ∨ (thirdPartyApplicabilityScan (params s3) = true
          ∧ ScanTechnology scan = Npm))
  ∧ NoDup recorded
  ∧ ∀ x, x ∈ recorded
         ↔ if useAll then x ∈ map Id (Nodes flatTree)
           else ∃ t, t ∈ full ∧ x ∈ map Id (Nodes t).
Proof.
  intros Hch Htree Hnodes Hscan useAll recorded.
  rewrite (executeScaScan_built sd scan s s1 _ _ _ s2 Hch Htree).
  assert (treeIsEmpty (Some flatTree) = false) as ->.
  { simpl. apply bool_decide_eq_false. by destruct (Nodes flatTree). }
  unfold mbind at 1 3, M_bind at 1 3. rewrite Hscan. cbn beta iota.
  unfold addThirdPartyDependenciesToParams. munfold.
  fold useAll. fold recorded. split_and!; try done.
  - apply shouldUseAllDependencies_iff.
  - unfold recorded. destruct useAll; apply getDirectDependenciesFromTree_spec.
  - intros x. unfold recorded. destruct useAll.
    + rewrite (proj2 (getDirectDependenciesFromTree_spec [flatTree])). split.
      * intros (t & Ht & Hx). by apply list_elem_of_singleton in Ht as ->.
      * intros Hx. exists flatTree. split; [apply list_elem_of_here|done].
    + apply getDirectDependenciesFromTree_spec.
Qed.

End Unit.

(** ** Runs on a concrete project

    An npm project in [/repo/app]: the detector reports its manifest, the
    builder answers with one tree and its two identifiers. *)

Definition npmDetected : TechMap :=
  {[ Npm := {[ "/repo/app" := ["package.json"] ]} ]}.

Definition npmTree : GraphNode :=
  mkGraphNode "app" [mkGraphNode "pkg:a@1" [leaf "pkg:b@2"]].

Definition npmProject : Collaborators :=
  demoCollaborators (Ok npmDetected) noConf
                    ([npmTree], ["pkg:a@1"; "pkg:b@2"], None).

(** The same project before it was built: the builder finds nothing. *)
Definition npmUnbuilt : Collaborators :=
  demoCollaborators (Ok npmDetected) noConf ([], [], None).

(** The same project with a builder that fails. *)
Definition npmBroken : Collaborators :=
  demoCollaborators (Ok npmDetected) noConf
                    ([], [], Some (errorString "npm ls failed")).

Definition npmScan : ScaScanResult := newScan "/repo/app" Npm ["package.json"].

Definition npmScanned : ScaScanResult :=
  mkScaScanResult "/repo/app" Npm ["package.json"] (Some false) ["CVE-0000-0001"].

(** A checkout with a Docker file next to the npm project: the Docker unit
    is scheduled first and fails, the npm unit after it goes through. *)
Definition dockerAndNpmDetected : TechMap :=
  {[ Docker := {[ "/repo/lib" := ["Dockerfile"] ]};
     Npm := {[ "/repo/app" := ["package.json"] ]} ]}.

Definition dockerAndNpm : Collaborators :=
  demoCollaborators (Ok dockerAndNpmDetected) noConf
                    ([npmTree], ["pkg:a@1"; "pkg:b@2"], None).

Definition dockerScan : ScaScanResult := newScan "/repo/lib" Docker ["Dockerfile"].

Lemma runScaScan_attempts_every_unit_witness :
  (getScaScansToPreform dockerAndNpm "/repo" (demoState [])).1
  = [dockerScan; npmScan]
  ∧ (runScaScan dockerAndNpm [] (demoState [])).1
    = ([npmScanned],
       errors_Join
         [errors_Join
            [None;
             Some (auditFailed "/repo/lib"
                     (buildFailed Docker
                        (errorString "docker is currently not supported")))];
          None])
  ∧ chdirs (trace (runScaScan dockerAndNpm [] (demoState [])).2)
    = ["/repo/lib"; "/repo/app"; "/repo"].
Proof.
  destruct (runScaScan_attempts_every_unit dockerAndNpm [] (demoState [])
              "https://xray.example") as [Hrun _].
  - apply (bool_decide_unpack _). vm_compute. exact I.
  - reflexivity.
  - intros _. exists "[]". reflexivity.
  - rewrite Hrun. split_and!; vm_compute; reflexivity.
Defined.

Lemma runScaScan_restores_cwd_witness :
  cwd (world (runScaScan npmProject [] (demoState [])).2) = "/repo"
  ∧ last (trace (runScaScan npmProject [] (demoState [])).2)
    = Some (EvChdir "/repo").
Proof.
  destruct (runScaScan_restores_cwd npmProject [] (demoState [])
              "https://xray.example" "[]") as [Hlast Hcwd].
  - apply (bool_decide_unpack _). vm_compute. exact I.
  - reflexivity.
  - reflexivity.
  - vm_compute. discriminate.
  - reflexivity.
  - split; [|exact Hlast].
    rewrite bool_decide_true in Hcwd; [exact (proj1 Hcwd)|].
    apply (bool_decide_unpack _). vm_compute. exact I.
Defined.

Lemma executeScaScan_no_dependencies_witness :
  executeScaScan npmUnbuilt "https://xray.example" npmScan (demoState [])
  = ((npmScan, Some (errorString noDependenciesMsg)),
     (buildDependencyTree npmUnbuilt "https://xray.example" Npm
        (SetResolutionRepoIfExists npmUnbuilt Npm
           (os_Chdir "/repo/app" (demoState [])).2).2).2).
Proof.
  exact (proj1 (executeScaScan_no_dependencies npmUnbuilt
                  "https://xray.example" npmScan (demoState []) _ _ _
                  "https://xray.example" [] None [] None []
                  eq_refl eq_refl eq_refl eq_refl)).
Defined.

(** C6 (as stated) fails when the builder reports an error along with the
    empty list: the unit fails with the tree-construction failure, not with
    the "no dependencies were found" message. *)
Lemma executeScaScan_builder_error_wins :
  (buildDependencyTree npmBroken "https://xray.example" Npm
     (SetResolutionRepoIfExists npmBroken Npm
        (os_Chdir "/repo/app" (demoState [])).2).2).1
  = ([], [], Some (errorString "npm ls failed"))
  ∧ (executeScaScan npmBroken "https://xray.example" npmScan (demoState [])).1.2
    = Some (buildFailed Npm (errorString "npm ls failed"))
  ∧ (executeScaScan npmBroken "https://xray.example" npmScan (demoState [])).1.2
    ≠ Some (errorString noDependenciesMsg).
Proof.
  split_and!.
  - reflexivity.
  - reflexivity.
  - vm_compute. discriminate.
Qed.

Lemma executeScaScan_records_dependencies_witness :
  dependenciesForApplicabilityScan
    (params (executeScaScan npmProject "https://xray.example" npmScan
               (demoState [])).2)
  = ["pkg:a@1"].
Proof.
  destruct (executeScaScan_records_dependencies npmProject
              "https://xray.example" npmScan (demoState [])
              (os_Chdir "/repo/app" (demoState [])).2
              (GetTechDependencyTree npmProject Npm
                 (os_Chdir "/repo/app" (demoState [])).2).2
              (runScaWithTech npmProject Npm "https://xray.example"
                 (mkGraphNode "root" [leaf "pkg:a@1"; leaf "pkg:b@2"]) [npmTree]
                 (GetTechDependencyTree npmProject Npm
                    (os_Chdir "/repo/app" (demoState [])).2).2).2
              (mkGraphNode "root" [leaf "pkg:a@1"; leaf "pkg:b@2"]) [npmTree]
              ["CVE-0000-0001"])
    as (_ & Hdeps & _).
  - vm_compute. reflexivity.
  - vm_compute. reflexivity.
  - discriminate.
  - vm_compute. reflexivity.
  - rewrite Hdeps. vm_compute. reflexivity.
Defined.

(** The same project, with a builder that leaves the tree of [/repo]
    closed behind it: the unit goes through, the way back is shut. *)
Definition closing (E : Collaborators) (dir : string) : Collaborators :=
  {| rangeTechs := rangeTechs E;
     rangeTechs_perm := rangeTechs_perm E;
     rangeDirs := rangeDirs E;
     rangeDirs_perm := rangeDirs_perm E;
     rangeSet := rangeSet E;
     rangeSet_perm := rangeSet_perm E;
     params_ServerDetails := params_ServerDetails E;
     DetectTechnologiesDescriptors := DetectTechnologiesDescriptors E;
     PrepareExcludePathPattern := PrepareExcludePathPattern E;
     GetJsonIndent := GetJsonIndent E;
     GetProjectConfFilePath := GetProjectConfFilePath E;
     ReadResolutionOnlyConfiguration := ReadResolutionOnlyConfiguration E;
     java_BuildDependencyTree := java_BuildDependencyTree E;
     npm_BuildDependencyTree :=
       λ p w, let '(r, w') := npm_BuildDependencyTree E p w in
              (r, mkWorld (cwd w') (dirs w' ∖ {[ dir ]}));
     yarn_BuildDependencyTree := yarn_BuildDependencyTree E;
     go_BuildDependencyTree := go_BuildDependencyTree E;
     python_BuildDependencyTree := python_BuildDependencyTree E;
     nuget_BuildDependencyTree := nuget_BuildDependencyTree E;
     RunXrayDependenciesTreeScanGraph := RunXrayDependenciesTreeScanGraph E;
     BuildImpactPathsForScanResponse := BuildImpactPathsForScanResponse E |}.

(** The same project in an environment where the server details cannot be
    had, or the list of scheduled units cannot be rendered. *)
Definition withPreparation (E : Collaborators)
    (sd : AuditParams → result ServerDetails)
    (json : list ScaScanResult → result string) : Collaborators :=
  {| rangeTechs := rangeTechs E;
     rangeTechs_perm := rangeTechs_perm E;
     rangeDirs := rangeDirs E;
     rangeDirs_perm := rangeDirs_perm E;
     rangeSet := rangeSet E;
     rangeSet_perm := rangeSet_perm E;
     params_ServerDetails := sd;
     DetectTechnologiesDescriptors := DetectTechnologiesDescriptors E;
     PrepareExcludePathPattern := PrepareExcludePathPattern E;
     GetJsonIndent := json;
     GetProjectConfFilePath := GetProjectConfFilePath E;
     ReadResolutionOnlyConfiguration := ReadResolutionOnlyConfiguration E;
     java_BuildDependencyTree := java_BuildDependencyTree E;
     npm_BuildDependencyTree := npm_BuildDependencyTree E;
     yarn_BuildDependencyTree := yarn_BuildDependencyTree E;
     go_BuildDependencyTree := go_BuildDependencyTree E;
     python_BuildDependencyTree := python_BuildDependencyTree E;
     nuget_BuildDependencyTree := nuget_BuildDependencyTree E;
     RunXrayDependenciesTreeScanGraph := RunXrayDependenciesTreeScanGraph E;
     BuildImpactPathsForScanResponse := BuildImpactPathsForScanResponse E |}.

Definition noServerDetails : Collaborators :=
  withPreparation npmProject (λ _, Err (errorString "no server configured"))
                  (GetJsonIndent npmProject).

Definition noJsonIndent : Collaborators :=
  withPreparation npmProject (params_ServerDetails npmProject)
                  (λ _, Err (errorString "json: unsupported value")).

(** A process whose working directory is gone. *)
Definition goneState : State :=
  mkState (mkWorld "/gone" {[ "/repo" ]}) (demoParams []) [].

(** C1 (as stated) fails in four runs.  With the way back shut, the only
    unit succeeds and is appended, and still the returned error is not
    nil: the failed restoration is joined in.  With the working directory
    gone, or without server details, an error is returned although no unit
    failed.  And when the list of scheduled units cannot be rendered, the
    unit that was scheduled is never run. *)
Lemma runScaScan_restore_error_returned :
  ((getScaScansToPreform (closing npmProject "/repo") "/repo" (demoState [])).1
   = [npmScan]
   ∧ (runUnits (closing npmProject "/repo") "https://xray.example" [npmScan]
        (getScaScansToPreform (closing npmProject "/repo") "/repo"
           (demoState [])).2).1
     = [(npmScanned, None)]
   ∧ (runScaScan (closing npmProject "/repo") [] (demoState [])).1
     = ([npmScanned],
        Some (joinError [errorString "chdir /repo: no such file or directory"])))
  ∧ runScaScan npmProject [] goneState
    = (([], Some (errorString "getwd: no such file or directory")), goneState)
  ∧ runScaScan noServerDetails [] (demoState [])
    = (([], Some (errorString "no server configured")), demoState [])
  ∧ ((getScaScansToPreform noJsonIndent "/repo" (demoState [])).1 = [npmScan]
     ∧ (runScaScan noJsonIndent [] (demoState [])).1
       = ([], Some (errorString "json: unsupported value"))
     ∧ chdirs (trace (runScaScan noJsonIndent [] (demoState [])).2) = []).
Proof.
  split_and!; vm_compute; reflexivity.
Qed.

(** * Further properties of the orchestrator *)

(** ** What a computation leaves alone *)

Definition preserves {A B : Type} (f : State → B) (m : M A) : Prop :=
  ∀ s, f (m s).2 = f s.

Lemma preserves_ret {A B : Type} (f : State → B) (a : A) : preserves f (mret a).
Proof. intros s. reflexivity. Qed.

Lemma preserves_bind {A B C : Type} (f : State → C) (m : M A) (k : A → M B) :
  preserves f m → (∀ a, preserves f (k a)) → preserves f (m ≫= k).
Proof.
  intros Hm Hk s. unfold mbind, M_bind.
  specialize (Hm s). destruct (m s) as [a s']. simpl in Hm.
  rewrite Hk. exact Hm.
Qed.

(** Walks through binds and case distinctions; what is left is closed by
    computation or by the lemmas given in [tac]. *)
Ltac frame_with tac :=
  repeat match goal with
         | |- preserves _ (_ ≫= _) => apply preserves_bind; [|intros ?]
         | |- preserves _ (mret _) => apply preserves_ret
         | |- preserves _ (match ?x with _ => _ end) => destruct x
         | |- preserves _ _ => first [tac | intros ?; reflexivity]
         end.

Definition recordedDeps (s : State) : list string :=
  dependenciesForApplicabilityScan (params s).

Definition builds (t : list Event) : list Technology :=
  omap (λ e, match e with EvBuild tech => Some tech | _ => None end) t.

Definition scanRequests (t : list Event) : list Technology :=
  omap (λ e, match e with EvScanGraph tech => Some tech | _ => None end) t.

(** What identifies a unit: where, what, and from which manifests. *)
Definition unitKey (u : ScaScanResult) : string * Technology * list string :=
  (WorkingDirectory u, ScanTechnology u, Descriptors u).

Section Footprint.

Variable E : Collaborators.

Lemma os_Chdir_recordedDeps dir : preserves recordedDeps (os_Chdir dir).
Proof. intros s. rewrite os_Chdir_eq. by case_bool_decide. Qed.

Lemma useResolverConfig_recordedDeps tech path :
  preserves recordedDeps (useResolverConfig E tech path).
Proof. unfold useResolverConfig, readConf. frame_with fail. Qed.

Lemma SetResolutionRepoIfExists_recordedDeps tech :
  preserves recordedDeps (SetResolutionRepoIfExists E tech).
Proof.
  unfold SetResolutionRepoIfExists, lookupConf.
  frame_with ltac:(apply useResolverConfig_recordedDeps).
Qed.

Lemma callBuilder_recordedDeps tech build :
  preserves recordedDeps (callBuilder tech build).
Proof. unfold callBuilder. frame_with fail. Qed.

Lemma buildDependencyTree_recordedDeps sd tech :
  preserves recordedDeps (buildDependencyTree E sd tech).
Proof.
  unfold buildDependencyTree. apply preserves_bind; [by intros ?|]. intros p.
  destruct tech; first [apply callBuilder_recordedDeps | apply preserves_ret].
Qed.

Lemma GetTechDependencyTree_recordedDeps tech :
  preserves recordedDeps (GetTechDependencyTree E tech).
Proof.
  unfold GetTechDependencyTree.
  frame_with ltac:(first [apply SetResolutionRepoIfExists_recordedDeps
                         | apply buildDependencyTree_recordedDeps]).
Qed.

Lemma runScaWithTech_recordedDeps tech sd flat full :
  preserves recordedDeps (runScaWithTech E tech sd flat full).
Proof. unfold runScaWithTech. frame_with fail. Qed.

(** A unit keeps its place, technology and descriptors, whatever happens. *)
Lemma executeScaScan_unitKey sd scan s :
  unitKey (executeScaScan E sd scan s).1.1 = unitKey scan.
Proof.
  unfold executeScaScan. munfold.
  repeat (case_match; simpl; try reflexivity).
Qed.

Lemma succeeded_sublist sd scans s :
  map unitKey (succeeded (runUnits E sd scans s).1)
    `sublist_of` map unitKey scans.
Proof.
  revert s. induction scans as [|scan rest IH]; intros s; [constructor|].
  cbn [runUnits]. munfold.
  pose proof (executeScaScan_unitKey sd scan s) as Hkey.
  destruct (executeScaScan E sd scan s) as [[scan' err] s'].
  specialize (IH s'). destruct (runUnits E sd rest s') as [os s''].
  simpl in *. destruct err as [e|]; simpl.
  - by apply sublist_cons.
  - rewrite Hkey. by apply sublist_skip.
Qed.

(** X1: whatever happens, the results passed in are still there, in
    place, followed by units that were scheduled in this run, in the order
    of scheduling. *)
Theorem runScaScan_results_extend (results : list ScaScanResult) (s : State) :
  ∃ added,
    (runScaScan E results s).1.1 = results ++ added
    ∧ map unitKey added
        `sublist_of` map unitKey (getScaScansToPreform E (cwd (world s)) s).1.
Proof.
  unfold runScaScan at 1, os_Getwd. munfold.
  case_bool_decide; simpl;
    [|exists []; split; [by rewrite app_nil_r|apply sublist_nil_l]].
  destruct (params_ServerDetails E (params s)) as [sd|e]; simpl;
    [|exists []; split; [by rewrite app_nil_r|apply sublist_nil_l]].
  destruct (getScaScansToPreform E (cwd (world s)) s) as [scans s1]; simpl.
  case_bool_decide; simpl;
    [exists []; split; [by rewrite app_nil_r|apply sublist_nil_l]|].
  destruct (GetJsonIndent E scans) as [j|e]; simpl;
    [|exists []; split; [by rewrite app_nil_r|apply sublist_nil_l]].
  rewrite scanLoop_eq.
  destruct (os_Chdir (cwd (world s)) (runUnits E sd scans s1).2) as [r s3].
  simpl. exists (succeeded (runUnits E sd scans s1).1).
  split; [reflexivity|apply succeeded_sublist].
Qed.

(** X2: when the working directory cannot be read, [runScaScan] returns
    the error of [os.Getwd]; when it can but the server details cannot be
    had, it returns the error of that call.  Either way it has done
    nothing else: no detection, no change of directory, results and
    parameters as they were. *)
Theorem runScaScan_preparation_failure
    (results : list ScaScanResult) (s : State) (e : error) :
  (os_Getwd s).1 = Err e
  ∨ ((∃ d, (os_Getwd s).1 = Ok d) ∧ params_ServerDetails E (params s) = Err e) →
  runScaScan E results s = ((results, Some e), s).
Proof.
  unfold runScaScan, os_Getwd. munfold.
  case_bool_decide as Hcwd; simpl.
  - intros [Hgetwd|[_ Hsd]]; [discriminate Hgetwd|]. by rewrite Hsd.
  - intros [Hgetwd|[[d Hgetwd] _]]; [|discriminate Hgetwd].
    by injection Hgetwd as ->.
Qed.

(** X3: when no requested directory yields a unit, because the detector
    failed there or reported nothing to schedule, [runScaScan] returns no
    error, adds no result, and leaves the working directory and the
    parameters as they were; the detections are all it did. *)
Theorem runScaScan_nothing_to_scan
    (results : list ScaScanResult) (s : State) (sd : ServerDetails) :
  cwd (world s) ∈ dirs (world s) →
  params_ServerDetails E (params s) = Ok sd →
  Forall (λ d, dirUnits E s (isRecursive E (cwd (world s)) s) d = [])
         (requestedDirectories E (cwd (world s)) s) →
  runScaScan E results s
  = ((results, None),
     withTrace s (map (λ d, EvDetect d (isRecursive E (cwd (world s)) s))
                      (requestedDirectories E (cwd (world s)) s))).
Proof.
  intros Hcwd Hsd Hnone. unfold runScaScan, os_Getwd. munfold.
  rewrite bool_decide_true by exact Hcwd. rewrite Hsd.
  rewrite getScaScansToPreform_eq.
  assert (concat (map (dirUnits E s (isRecursive E (cwd (world s)) s))
                      (requestedDirectories E (cwd (world s)) s)) = []) as ->.
  { induction Hnone as [|d ds Hd _ IH]; [reflexivity|].
    simpl. by rewrite Hd, IH. }
  reflexivity.
Qed.

End Footprint.

(** ** The tree of one technology *)

Definition isConfEvent (e : Event) : Prop :=
  match e with
  | EvConfLookup _ | EvConfRead _ => True
  | _ => False
  end.

(** The parameters agree on everything the resolver does not own. *)
Definition sameButResolution (p q : AuditParams) : Prop :=
  q = SetDepsRepo (depsRepo q) (SetServerDetails (serverDetails q) p).

Lemma sameButResolution_refl p : sameButResolution p p.
Proof. by destruct p. Qed.

Section Tree.

Variable E : Collaborators.

Lemma useResolverConfig_footprint tech path s :
  ∃ p' evs,
    (useResolverConfig E tech path s).2 = mkState (world s) p' (trace s ++ evs)
    ∧ sameButResolution (params s) p'
    ∧ Forall isConfEvent evs.
Proof.
  rewrite useResolverConfig_eq.
  destruct (ReadResolutionOnlyConfiguration E path (world s)) as [cfg|e].
  - destruct (repoServer cfg) as [d|e]; simpl.
    + eexists _, [_]. split_and!; [reflexivity| |by repeat constructor].
      by destruct (params s).
    + eexists _, [_]. split_and!; [reflexivity| |by repeat constructor].
      apply sameButResolution_refl.
  - simpl. eexists _, [_]. split_and!; [reflexivity| |by repeat constructor].
    apply sameButResolution_refl.
Qed.

Lemma confLookups_conf tech w : Forall isConfEvent (confLookups E tech w).
Proof.
  unfold confLookups.
  destruct (GetProjectConfFilePath E (techType tech) w) as [[path ex] [e|]];
    destruct ex; try case_bool_decide; by repeat constructor.
Qed.

Lemma SetResolutionRepoIfExists_state (tech : Technology) (s : State) :
  ∃ p' evs,
    (SetResolutionRepoIfExists E tech s).2
    = mkState (world s) p' (trace s ++ evs)
    ∧ sameButResolution (params s) p'
    ∧ Forall isConfEvent evs.
Proof.
  destruct (decide (depsRepo (params s) = "")) as [Hrepo|Hrepo];
    [destruct (ignoreConfigFile (params s)) eqn:Hign|].
  - rewrite SetResolutionRepoIfExists_skip by by right.
    exists (params s), []. rewrite app_nil_r.
    split_and!; [by destruct s|apply sameButResolution_refl|constructor].
  - rewrite SetResolutionRepoIfExists_eq by done.
    pose proof (confLookups_conf tech (world s)) as Hlook.
    destruct (findConf E tech (world s)) as [path| |e].
    + destruct (useResolverConfig_footprint tech path
                  (withTrace s (confLookups E tech (world s))))
        as (p' & evs & Heq & Hsame & Hevs).
      exists p', (confLookups E tech (world s) ++ evs).
      rewrite Heq. simpl. rewrite <- app_assoc.
      split_and!; [reflexivity|exact Hsame|by apply Forall_app].
    + eexists _, _. split_and!; [reflexivity|apply sameButResolution_refl|done].
    + eexists _, _. split_and!; [reflexivity|apply sameButResolution_refl|done].
  - rewrite SetResolutionRepoIfExists_skip by by left.
    exists (params s), []. rewrite app_nil_r.
    split_and!; [by destruct s|apply sameButResolution_refl|constructor].
Qed.

(** X4: of the parameters, the resolver can change only the server
    details and the dependencies repository, and the only calls it makes
    to the outside are configuration lookups and reads: it starts no tree
    build and sends nothing to the backend. *)
Theorem SetResolutionRepoIfExists_footprint (tech : Technology) (s : State) :
  sameButResolution (params s) (params (SetResolutionRepoIfExists E tech s).2)
  ∧ ∃ evs,
      trace (SetResolutionRepoIfExists E tech s).2 = trace s ++ evs
      ∧ Forall isConfEvent evs.
Proof.
  destruct (SetResolutionRepoIfExists_state tech s)
    as (p' & evs & -> & Hsame & Hevs).
  split; [exact Hsame|]. by exists evs.
Qed.

Lemma builds_app t1 t2 : builds (t1 ++ t2) = builds t1 ++ builds t2.
Proof. apply omap_app. Qed.

(** Nothing in the resolver starts a build. *)
Ltac no_build :=
  intros ?; cbn [emit snd trace]; rewrite builds_app; apply app_nil_r.

Lemma useResolverConfig_builds tech path :
  preserves (λ s, builds (trace s)) (useResolverConfig E tech path).
Proof. unfold useResolverConfig, readConf. frame_with no_build. Qed.

Lemma SetResolutionRepoIfExists_builds tech :
  preserves (λ s, builds (trace s)) (SetResolutionRepoIfExists E tech).
Proof.
  unfold SetResolutionRepoIfExists, lookupConf.
  frame_with ltac:(first [apply useResolverConfig_builds | no_build]).
Qed.

(** X5: when [GetTechDependencyTree] hands back a flat tree there is no
    error, and the tree is the root ["root"] over at least one leaf; so a
    flat tree is never empty, and an error never comes with one. *)
Theorem GetTechDependencyTree_flat_tree (tech : Technology) (s : State) :
  match (GetTechDependencyTree E tech s).1 with
  | (Some flatTree, _, err) =>
      err = None
      ∧ Id flatTree = "root"
      ∧ Nodes flatTree ≠ []
      ∧ Forall (λ child, Nodes child = []) (Nodes flatTree)
  | (None, _, _) => True
  end.
Proof.
  unfold GetTechDependencyTree. munfold.
  destruct (params_ServerDetails E (params s)) as [sd|e]; [|exact I].
  destruct (SetResolutionRepoIfExists E tech s) as [[e|] s1]; [exact I|].
  destruct (buildDependencyTree E sd tech s1) as [[[full uniq] berr] s2].
  destruct (bool_decide (berr ≠ None) || bool_decide (length uniq = 0)) eqn:Hcond;
    [exact I|].
  rewrite createFlatTree_eq. simpl.
  apply orb_false_iff in Hcond as [_ Hlen].
  apply bool_decide_eq_false in Hlen.
  split_and!; [reflexivity|reflexivity| |].
  - destruct uniq; [by destruct Hlen|discriminate].
  - apply Forall_forall. intros c Hc.
    by apply list_elem_of_fmap in Hc as (x & -> & _).
Qed.

(** X6: for a technology without a tree builder (Dotnet, Docker)
    [GetTechDependencyTree] returns no tree and an error: the error of the
    server details when they cannot be had, else the error of the
    resolver, else "<technology> is currently not supported".  Beyond
    running the resolver it does nothing; in particular no tree builder is
    run. *)
Theorem GetTechDependencyTree_unsupported (tech : Technology) (s : State) :
  tech = Dotnet ∨ tech = Docker →
  GetTechDependencyTree E tech s
  = match params_ServerDetails E (params s) with
    | Err e => ((None, [], Some e), s)
    | Ok _ =>
        ((None, [],
          Some (match (SetResolutionRepoIfExists E tech s).1 with
                | Some e => e
                | None =>
                    errorString (Technology_String tech
                                 +:+ " is currently not supported")
                end)),
         (SetResolutionRepoIfExists E tech s).2)
    end
  ∧ builds (trace (GetTechDependencyTree E tech s).2) = builds (trace s).
Proof.
  intros Htech. unfold GetTechDependencyTree. munfold.
  destruct (params_ServerDetails E (params s)) as [sd|e]; simpl;
    [|by split].
  pose proof (SetResolutionRepoIfExists_builds tech s) as Hbuilds.
  destruct (SetResolutionRepoIfExists E tech s) as [[e|] s1]; simpl in *.
  - by split.
  - unfold buildDependencyTree. munfold.
    destruct Htech as [-> | ->]; simpl; by split.
Qed.

(** X7: once the resolver has found a configuration for one technology
    and written its server details and a non-empty dependencies repository
    into the shared parameters, every later call, for whatever technology,
    does nothing: no lookup is made and the parameters stay as the first
    call left them. *)
Theorem SetResolutionRepoIfExists_sticky
    (tech tech' : Technology) (s : State) (path : string)
    (repoConfig : RepoConfig) (details : ServerDetails) :
  depsRepo (params s) = "" →
  ignoreConfigFile (params s) = false →
  findConf E tech (world s) = ConfFound path →
  ReadResolutionOnlyConfiguration E path (world s) = Ok repoConfig →
  repoServer repoConfig = Ok details →
  TargetRepo repoConfig ≠ "" →
  serverDetails (params (SetResolutionRepoIfExists E tech s).2) = details
  ∧ depsRepo (params (SetResolutionRepoIfExists E tech s).2)
    = TargetRepo repoConfig
  ∧ SetResolutionRepoIfExists E tech' (SetResolutionRepoIfExists E tech s).2
    = (None, (SetResolutionRepoIfExists E tech s).2).
Proof.
  intros Hrepo Hign Hfound Hread Hserver Htarget.
  assert (params (SetResolutionRepoIfExists E tech s).2
          = SetDepsRepo (TargetRepo repoConfig)
              (SetServerDetails details (params s))) as Hparams.
  { rewrite SetResolutionRepoIfExists_eq by done. rewrite Hfound.
    rewrite useResolverConfig_eq. simpl. by rewrite Hread, Hserver. }
  split_and!.
  - by rewrite Hparams.
  - by rewrite Hparams.
  - apply SetResolutionRepoIfExists_skip. left. by rewrite Hparams.
Qed.

Definition isPython (tech : Technology) : Prop :=
  tech = Pip ∨ tech = Pipenv ∨ tech = Poetry.

(** X8: when the resolver finds a configuration for Pip, Pipenv or
    Poetry, the parameters end up with the server details of that
    configuration, but the tree builder is called with the server details
    the parameters gave before the resolver ran, together with the
    dependencies repository of the configuration. *)
Theorem GetTechDependencyTree_python_arguments
    (tech : Technology) (s : State) (sd details : ServerDetails)
    (path : string) (repoConfig : RepoConfig) :
  isPython tech →
  params_ServerDetails E (params s) = Ok sd →
  depsRepo (params s) = "" →
  ignoreConfigFile (params s) = false →
  findConf E tech (world s) = ConfFound path →
  ReadResolutionOnlyConfiguration E path (world s) = Ok repoConfig →
  repoServer repoConfig = Ok details →
  let built :=
    python_BuildDependencyTree E
      (mkAuditPython sd tech (TargetRepo repoConfig)
                     (pipRequirementsFile (params s)))
      (world s) in
  GetTechDependencyTree E tech s
  = ((if bool_decide (built.1.2 ≠ None) || bool_decide (length built.1.1.2 = 0)
      then (None, built.1.1.1, built.1.2)
      else (Some (mkGraphNode "root" (map leaf built.1.1.2)), built.1.1.1, None)),
     mkState built.2
             (SetDepsRepo (TargetRepo repoConfig)
                (SetServerDetails details (params s)))
             (trace s ++ confLookups E tech (world s)
              ++ [EvConfRead path; EvBuild tech]))
  ∧ serverDetails (params (GetTechDependencyTree E tech s).2) = details.
Proof.
  intros Hpy Hsd Hrepo Hign Hfound Hread Hserver built. subst built.
  assert (SetResolutionRepoIfExists E tech s
          = (None,
             mkState (world s)
                     (SetDepsRepo (TargetRepo repoConfig)
                        (SetServerDetails details (params s)))
                     ((trace s ++ confLookups E tech (world s))
                      ++ [EvConfRead path]))) as Hres.
  { rewrite SetResolutionRepoIfExists_eq by done. rewrite Hfound.
    rewrite useResolverConfig_eq. simpl. by rewrite Hread, Hserver. }
  destruct (python_BuildDependencyTree E
              (mkAuditPython sd tech (TargetRepo repoConfig)
                 (pipRequirementsFile (params s))) (world s))
    as [[[full uniq] berr] w'] eqn:Hbuilt.
  cbn [fst snd].
  rewrite (GetTechDependencyTree_built E tech s sd _ full uniq berr
             (mkState w'
                (SetDepsRepo (TargetRepo repoConfig)
                   (SetServerDetails details (params s)))
                (trace s ++ confLookups E tech (world s)
                 ++ [EvConfRead path; EvBuild tech])) Hsd Hres).
  - split; destruct (_ || _); reflexivity.
  - unfold buildDependencyTree, callBuilder. munfold.
    destruct Hpy as [-> | [-> | ->]]; simpl; rewrite Hbuilt;
      simpl; by rewrite <- !app_assoc.
Qed.

End Tree.

(** ** What a unit leaves behind *)

Section UnitOutcome.

Variable E : Collaborators.

Lemma addThirdPartyDependenciesToParams_eq tech flat full s :
  addThirdPartyDependenciesToParams E tech flat full s
  = (tt, mkState (world s)
           (AppendDependenciesForApplicabilityScan
              (if shouldUseAllDependencies
                    (thirdPartyApplicabilityScan (params s)) tech
               then getDirectDependenciesFromTree E [flat]
               else getDirectDependenciesFromTree E full)
              (params s))
           (trace s)).
Proof. reflexivity. Qed.

(** X9: a unit that goes through comes back with its place, technology
    and descriptors unchanged, its multiple-roots flag set, and its scan
    responses extended; a unit that fails comes back exactly as it was,
    and nothing is recorded for the applicability scan on its behalf. *)
Theorem executeScaScan_outcome
    (sd : ServerDetails) (scan : ScaScanResult) (s : State) :
  match (executeScaScan E sd scan s).1 with
  | (scan', None) =>
      unitKey scan' = unitKey scan
      ∧ is_Some (IsMultipleRootProject scan')
      ∧ XrayResults scan `prefix_of` XrayResults scan'
  | (scan', Some _) =>
      scan' = scan
      ∧ recordedDeps (executeScaScan E sd scan s).2 = recordedDeps s
  end.
Proof.
  unfold executeScaScan. munfold.
  pose proof (os_Chdir_recordedDeps (WorkingDirectory scan) s) as H1.
  destruct (os_Chdir (WorkingDirectory scan) s) as [[e|] s1]; simpl in *;
    [by split|].
  pose proof (GetTechDependencyTree_recordedDeps E (ScanTechnology scan) s1) as H2.
  destruct (GetTechDependencyTree E (ScanTechnology scan) s1)
    as [[[[flat|] full] [e|]] s2]; simpl in *;
    try (split; [reflexivity|congruence]).
  destruct (bool_decide (length (Nodes flat) = 0)); simpl;
    [split; [reflexivity|congruence]|].
  pose proof (runScaWithTech_recordedDeps E (ScanTechnology scan) sd flat full s2)
    as H3.
  destruct (runScaWithTech E (ScanTechnology scan) sd flat full s2)
    as [[res [e|]] s3]; simpl in *;
    [split; [reflexivity|congruence]|].
  split_and!; [reflexivity|by eexists|by apply prefix_app_r].
Qed.

(** X10: a unit whose working directory cannot be entered fails at once:
    no configuration is looked up, no tree is built, nothing is sent to
    the backend, and the process stays where it was. *)
Theorem executeScaScan_chdir_failure
    (sd : ServerDetails) (scan : ScaScanResult) (s : State) :
  resolvePath (cwd (world s)) (WorkingDirectory scan) ∉ dirs (world s) →
  ∃ e, executeScaScan E sd scan s
       = ((scan, Some e), withTrace s [EvChdir (WorkingDirectory scan)]).
Proof.
  intros Hdir. unfold executeScaScan.
  unfold mbind at 1, M_bind at 1. rewrite os_Chdir_eq.
  rewrite bool_decide_false by exact Hdir.
  eexists. reflexivity.
Qed.

End UnitOutcome.

(** ** What the returned error says *)

(** [part] occurs in [msg]. *)
Definition mentions (msg part : string) : Prop :=
  ∃ pre post, msg = pre +:+ part +:+ post.

Lemma string_append_cons (ch : ascii) (a b : string) :
  String ch a +:+ b = String ch (a +:+ b).
Proof. reflexivity. Qed.

Lemma string_append_assoc (a b c : string) :
  (a +:+ b) +:+ c = a +:+ (b +:+ c).
Proof.
  induction a as [|ch a IH]; [reflexivity|].
  by rewrite !string_append_cons, IH.
Qed.

Lemma string_append_nil_r (a : string) : a +:+ "" = a.
Proof.
  induction a as [|ch a IH]; [reflexivity|].
  by rewrite string_append_cons, IH.
Qed.

Lemma mentions_refl (msg : string) : mentions msg msg.
Proof. exists "", "". simpl. by rewrite string_append_nil_r. Qed.

Lemma mentions_prepend (a msg part : string) :
  mentions msg part → mentions (a +:+ msg) part.
Proof.
  intros (pre & post & ->). exists (a +:+ pre), post.
  by rewrite string_append_assoc.
Qed.

Lemma mentions_append (a msg part : string) :
  mentions msg part → mentions (msg +:+ a) part.
Proof.
  intros (pre & post & ->). exists pre, (post +:+ a).
  by rewrite !string_append_assoc.
Qed.

Lemma mentions_trans (a b c : string) :
  mentions a b → mentions b c → mentions a c.
Proof.
  intros (pre & post & ->) (pre' & post' & ->).
  exists (pre +:+ pre'), (post' +:+ post).
  by rewrite !string_append_assoc.
Qed.

(** A joined error mentions what its members mention. *)
Lemma errors_Join_mentions_l (a : error) (b : option error) (part : string) :
  mentions (Error a) part →
  ∃ agg, errors_Join [Some a; b] = Some agg ∧ mentions (Error agg) part.
Proof.
  intros Ha. destruct b as [b|]; eexists; (split; [reflexivity|]); simpl.
  - by apply mentions_append.
  - exact Ha.
Qed.

Lemma errors_Join_mentions_r (a : option error) (b : error) (part : string) :
  mentions (Error b) part →
  ∃ agg, errors_Join [a; Some b] = Some agg ∧ mentions (Error agg) part.
Proof.
  intros Hb. destruct a as [a|]; eexists; (split; [reflexivity|]); simpl.
  - by do 2 apply mentions_prepend.
  - exact Hb.
Qed.

Lemma joinFailures_keep_mentions (outcomes : list (ScaScanResult * option error))
    (a : error) (part : string) :
  mentions (Error a) part →
  ∃ agg, foldl joinFailure (Some a) outcomes = Some agg
         ∧ mentions (Error agg) part.
Proof.
  revert a. induction outcomes as [|[u [e|]] os IH]; intros a Ha; simpl.
  - by exists a.
  - unfold joinFailure at 2. simpl.
    destruct (errors_Join_mentions_l a
                (Some (auditFailed (WorkingDirectory u) e)) part Ha)
      as (agg & -> & Hagg).
    by apply IH.
  - by apply IH.
Qed.

Lemma joinFailures_mention_failed (outcomes : list (ScaScanResult * option error))
    (err : option error) (u : ScaScanResult) (e : error) :
  (u, Some e) ∈ outcomes →
  ∃ agg, foldl joinFailure err outcomes = Some agg
         ∧ mentions (Error agg) (Error (auditFailed (WorkingDirectory u) e)).
Proof.
  revert err. induction outcomes as [|o os IH]; intros err Hin;
    [by apply elem_of_nil in Hin|].
  apply elem_of_cons in Hin as [<- | Hin]; simpl.
  - unfold joinFailure at 2. simpl.
    destruct (errors_Join_mentions_r err
                (auditFailed (WorkingDirectory u) e) _ (mentions_refl _))
      as (agg & -> & Hagg).
    by apply joinFailures_keep_mentions.
  - by apply IH.
Qed.

Section Report.

Variable E : Collaborators.

(** X11: the error [runScaScan] returns names every unit that failed: its
    message contains, for each of them, the line "audit command in
    '<working directory>' failed:" followed by that unit's own error
    message; for a failed tree build that message names the technology. *)
Theorem runScaScan_error_mentions_failed_units
    (results : list ScaScanResult) (s : State) (sd : ServerDetails) (j : string)
    (u : ScaScanResult) (e : error) :
  cwd (world s) ∈ dirs (world s) →
  params_ServerDetails E (params s) = Ok sd →
  (getScaScansToPreform E (cwd (world s)) s).1 ≠ [] →
  GetJsonIndent E (getScaScansToPreform E (cwd (world s)) s).1 = Ok j →
  (u, Some e) ∈ (runUnits E sd (getScaScansToPreform E (cwd (world s)) s).1
                   (getScaScansToPreform E (cwd (world s)) s).2).1 →
  ∃ agg,
    (runScaScan E results s).1.2 = Some agg
    ∧ mentions (Error agg)
        ("audit command in '" +:+ WorkingDirectory u +:+ "' failed:" +:+ nl
         +:+ Error e)
    ∧ ∀ tech e0, e = buildFailed tech e0 →
        mentions (Error agg)
          ("failed while building '" +:+ Technology_String tech
           +:+ "' dependency tree:").
Proof.
  intros Hcwd Hsd Hscans Hjson Hin.
  pose proof (runScaScan_loop E results s sd j Hcwd Hsd Hscans Hjson) as Hrun.
  cbv zeta in Hrun. rewrite Hrun. clear Hrun. cbn [fst snd].
  destruct (joinFailures_mention_failed _ None u e Hin) as (agg & -> & Hagg).
  destruct (errors_Join_mentions_l agg
              (os_Chdir (cwd (world s))
                 (runUnits E sd (getScaScansToPreform E (cwd (world s)) s).1
                    (getScaScansToPreform E (cwd (world s)) s).2).2).1
              _ Hagg) as (agg' & -> & Hagg').
  exists agg'. split_and!; [reflexivity|exact Hagg'|].
  intros tech e0 ->. eapply mentions_trans; [exact Hagg'|].
  exists ("audit command in '" +:+ WorkingDirectory u +:+ "' failed:" +:+ nl),
         (nl +:+ Error e0).
  simpl. rewrite !string_append_assoc. reflexivity.
Qed.

End Report.

(** ** The units of one detection *)

Lemma elem_of_concat_map {A B : Type} (f : A → list B) (l : list A) (y : B) :
  y ∈ concat (map f l) ↔ ∃ x, x ∈ l ∧ y ∈ f x.
Proof.
  induction l as [|a l IH]; simpl.
  - split; [by intros ?%elem_of_nil|]. by intros (x & ?%elem_of_nil & _).
  - rewrite elem_of_app, IH. split.
    + intros [Hy|(x & Hx & Hy)].
      * exists a. split; [apply list_elem_of_here|done].
      * exists x. split; [by apply list_elem_of_further|done].
    + intros (x & Hx & Hy). apply elem_of_cons in Hx as [->|Hx].
      * by left.
      * right. by exists x.
Qed.

Section Detected.

Variable E : Collaborators.

Lemma elem_of_techUnits d tech wds u :
  u ∈ techUnits E d tech wds
  ↔ (wds = ∅ ∧ u = newScan d tech [])
    ∨ ∃ wd ds, wds !! wd = Some ds ∧ u = newScan wd tech ds.
Proof.
  unfold techUnits. rewrite elem_of_app, list_elem_of_fmap. split.
  - intros [Hu|([wd ds] & -> & Hin)].
    + case_bool_decide as Hsize; [|by apply elem_of_nil in Hu].
      apply list_elem_of_singleton in Hu. left.
      split; [by apply map_size_empty_iff|done].
    + right. exists wd, ds. split; [|done].
      rewrite (rangeDirs_perm E) in Hin. by apply elem_of_map_to_list.
  - intros [[-> ->]|(wd & ds & Hwd & ->)].
    + left. rewrite bool_decide_true by apply map_size_empty.
      apply list_elem_of_here.
    + right. exists (wd, ds). split; [done|].
      rewrite (rangeDirs_perm E). by apply elem_of_map_to_list.
Qed.

(** X12: the units scheduled from one detection are exactly these: for
    every technology reported other than Dotnet, one unit per working
    directory reported for it, with that directory's descriptors, or, when
    none is reported, one unit at the requested directory without
    descriptors.  Nothing that was not reported is scheduled, and nothing
    reported, Dotnet apart, is left out. *)
Theorem addDetection_units (d : string) (m : TechMap) (u : ScaScanResult) :
  u ∈ addDetection E d m []
  ↔ ∃ tech wds,
      m !! tech = Some wds ∧ tech ≠ Dotnet
      ∧ ((wds = ∅ ∧ u = newScan d tech [])
         ∨ ∃ wd ds, wds !! wd = Some ds ∧ u = newScan wd tech ds).
Proof.
  rewrite addDetection_eq. simpl. rewrite elem_of_concat_map. split.
  - intros ([tech wds] & Hin & Hu).
    rewrite (rangeTechs_perm E) in Hin. apply elem_of_map_to_list in Hin.
    unfold entryUnits in Hu. simpl in Hu.
    case_bool_decide as Hdotnet; [by apply elem_of_nil in Hu|].
    exists tech, wds. split_and!; [done|done|].
    by apply elem_of_techUnits.
  - intros (tech & wds & Hm & Hne & Hu).
    exists (tech, wds). split.
    + rewrite (rangeTechs_perm E). by apply elem_of_map_to_list.
    + unfold entryUnits. simpl. rewrite bool_decide_false by done.
      by apply elem_of_techUnits.
Qed.

Lemma NoDup_scanOfDir tech (l : list (string * list string)) :
  NoDup l.*1 → NoDup (map (scanOfDir tech) l).
Proof.
  induction l as [|[wd ds] l IH]; simpl; intros Hnd; [constructor|].
  apply NoDup_cons in Hnd as [Hfresh Hnd].
  apply NoDup_cons. split; [|by apply IH].
  intros Hin. apply list_elem_of_fmap in Hin as ([wd' ds'] & Heq & Hin).
  injection Heq as -> ->. apply Hfresh.
  apply list_elem_of_fmap. by exists (wd', ds').
Qed.

Lemma NoDup_techUnits d tech wds : NoDup (techUnits E d tech wds).
Proof.
  unfold techUnits. case_bool_decide as Hsize; simpl.
  - apply map_size_empty_iff in Hsize as ->.
    rewrite map_to_list_empty, (perm_nil_inv _ (rangeDirs_perm E)).
    apply NoDup_singleton.
  - apply NoDup_scanOfDir. rewrite (rangeDirs_perm E).
    apply NoDup_fst_map_to_list.
Qed.

Lemma NoDup_entries d (l : list (Technology * gmap string (list string))) :
  NoDup l.*1 → NoDup (concat (map (entryUnits E d) l)).
Proof.
  induction l as [|[tech wds] l IH]; simpl; intros Hnd; [constructor|].
  apply NoDup_cons in Hnd as [Hfresh Hnd].
  apply NoDup_app. split_and!; [| |by apply IH].
  - unfold entryUnits. simpl. case_bool_decide; [constructor|].
    apply NoDup_techUnits.
  - intros u Hu Hin.
    apply elem_of_concat_map in Hin as ([tech' wds'] & Hin' & Hu').
    pose proof (entryUnits_tech E d (tech, wds)) as H1.
    pose proof (entryUnits_tech E d (tech', wds')) as H2.
    rewrite Forall_forall in H1, H2.
    destruct (H1 u Hu) as [Ht _]. destruct (H2 u Hu') as [Ht' _].
    simpl in *. apply Hfresh. apply list_elem_of_fmap.
    exists (tech', wds'). split; [simpl; congruence|done].
Qed.

(** X13: no unit is scheduled twice from one detection. *)
Theorem addDetection_NoDup (d : string) (m : TechMap) :
  NoDup (addDetection E d m []).
Proof.
  rewrite addDetection_eq. simpl. apply NoDup_entries.
  rewrite (rangeTechs_perm E). apply NoDup_fst_map_to_list.
Qed.

(** X14: the direct dependencies extracted from a forest depend only on
    which identifiers occur as children of its roots: forests with the
    same root children give the same identifiers, each once, whatever the
    order and multiplicity of the trees. *)
Theorem getDirectDependenciesFromTree_set
    (trees trees' : list GraphNode) :
  (∀ x, (∃ t, t ∈ trees ∧ x ∈ map Id (Nodes t))
        ↔ (∃ t, t ∈ trees' ∧ x ∈ map Id (Nodes t))) →
  getDirectDependenciesFromTree E trees
  ≡ₚ getDirectDependenciesFromTree E trees'.
Proof.
  intros Hsame.
  destruct (getDirectDependenciesFromTree_spec E trees) as [Hnd Hin].
  destruct (getDirectDependenciesFromTree_spec E trees') as [Hnd' Hin'].
  apply NoDup_Permutation; [done|done|].
  intros x. by rewrite Hin, Hin', Hsame.
Qed.

End Detected.

(** ** Further runs on concrete projects *)

(** A detector that cannot read the directory. *)
Definition unreadable : Collaborators :=
  demoCollaborators (Err (errorString "permission denied")) noConf ([], [], None).

Lemma runScaScan_preparation_failure_witness :
  runScaScan npmProject [] goneState
  = (([], Some (errorString "getwd: no such file or directory")), goneState).
Proof.
  apply (runScaScan_preparation_failure npmProject [] goneState
           (errorString "getwd: no such file or directory")).
  left. vm_compute. reflexivity.
Defined.

Lemma runScaScan_nothing_to_scan_witness :
  runScaScan unreadable [] (demoState [])
  = (([], None), withTrace (demoState []) [EvDetect "/repo" true]).
Proof.
  apply (runScaScan_nothing_to_scan unreadable [] (demoState [])
           "https://xray.example").
  - apply (bool_decide_unpack _). vm_compute. exact I.
  - reflexivity.
  - constructor; [reflexivity|constructor].
Defined.

(** A checkout that has a [go.yaml]: a Docker unit, whose technology has
    no entry in [techType], is resolved through it before it is refused. *)
Definition goConfigured : Collaborators :=
  demoCollaborators (Ok ∅) (confOf ProjGo "/repo/.jfrog/projects/go.yaml")
                    ([npmTree], ["pkg:a@1"; "pkg:b@2"], None).

Lemma GetTechDependencyTree_unsupported_witness :
  (GetTechDependencyTree goConfigured Docker (demoState [])).1
  = (None, [], Some (errorString "docker is currently not supported"))
  ∧ depsRepo (params (GetTechDependencyTree goConfigured Docker (demoState [])).2)
    = "libs-virtual"
  ∧ trace (GetTechDependencyTree goConfigured Docker (demoState [])).2
    = [EvConfLookup ProjGo; EvConfRead "/repo/.jfrog/projects/go.yaml"].
Proof.
  destruct (GetTechDependencyTree_unsupported goConfigured Docker (demoState []))
    as [Heq _].
  - right. reflexivity.
  - rewrite Heq. split_and!; vm_compute; reflexivity.
Defined.

Lemma SetResolutionRepoIfExists_sticky_witness :
  serverDetails
    (params (SetResolutionRepoIfExists npmConfigured Npm (requestedState ["npm"])).2)
  = "https://artifactory.example"
  ∧ depsRepo
      (params (SetResolutionRepoIfExists npmConfigured Npm (requestedState ["npm"])).2)
    = "libs-virtual"
  ∧ SetResolutionRepoIfExists npmConfigured Maven
      (SetResolutionRepoIfExists npmConfigured Npm (requestedState ["npm"])).2
    = (None, (SetResolutionRepoIfExists npmConfigured Npm (requestedState ["npm"])).2).
Proof.
  apply (SetResolutionRepoIfExists_sticky npmConfigured Npm Maven
           (requestedState ["npm"]) "/repo/.jfrog/projects/npm.yaml"
           (mkRepoConfig (Ok "https://artifactory.example") "libs-virtual")
           "https://artifactory.example").
  - reflexivity.
  - reflexivity.
  - reflexivity.
  - reflexivity.
  - reflexivity.
  - vm_compute. discriminate.
Defined.

(** A checkout with a [pip.yaml], and a Python builder that reports the
    server and the repository it was given as its two dependencies. *)
Definition pipEcho : Collaborators :=
  {| rangeTechs := id;
     rangeTechs_perm := λ l, reflexivity l;
     rangeDirs := id;
     rangeDirs_perm := λ l, reflexivity l;
     rangeSet := id;
     rangeSet_perm := λ l, reflexivity l;
     params_ServerDetails := λ p, Ok (serverDetails p);
     DetectTechnologiesDescriptors := λ _ _ _ _ _ _, Ok ∅;
     PrepareExcludePathPattern := λ excl _, String.concat ";" excl;
     GetJsonIndent := λ _, Ok "[]";
     GetProjectConfFilePath :=
       λ pt _, confOf ProjPip "/repo/.jfrog/projects/pip.yaml" pt;
     ReadResolutionOnlyConfiguration :=
       λ path _, Ok (mkRepoConfig (Ok "https://artifactory.example") "pypi-virtual");
     java_BuildDependencyTree := λ _ _ w, (([], [], None), w);
     npm_BuildDependencyTree := λ _ w, (([], [], None), w);
     yarn_BuildDependencyTree := λ _ w, (([], [], None), w);
     go_BuildDependencyTree := λ _ w, (([], [], None), w);
     python_BuildDependencyTree :=
       λ a w, (([], [Server a; RemotePypiRepo a], None), w);
     nuget_BuildDependencyTree := λ _ w, (([], [], None), w);
     RunXrayDependenciesTreeScanGraph := λ _ _ _ w, (([], None), w);
     BuildImpactPathsForScanResponse := λ rs _, rs |}.

Lemma GetTechDependencyTree_python_arguments_witness :
  (GetTechDependencyTree pipEcho Pip (requestedState ["pip"])).1
  = (Some (mkGraphNode "root" [leaf "https://xray.example"; leaf "pypi-virtual"]),
     [], None)
  ∧ serverDetails (params (GetTechDependencyTree pipEcho Pip (requestedState ["pip"])).2)
    = "https://artifactory.example".
Proof.
  destruct (GetTechDependencyTree_python_arguments pipEcho Pip
              (requestedState ["pip"]) "https://xray.example"
              "https://artifactory.example" "/repo/.jfrog/projects/pip.yaml"
              (mkRepoConfig (Ok "https://artifactory.example") "pypi-virtual"))
    as [Heq Hserver].
  - left. reflexivity.
  - reflexivity.
  - reflexivity.
  - reflexivity.
  - reflexivity.
  - reflexivity.
  - reflexivity.
  - split; [|exact Hserver]. rewrite Heq. vm_compute. reflexivity.
Defined.

Lemma executeScaScan_chdir_failure_witness :
  ∃ e, executeScaScan npmProject "https://xray.example"
         (newScan "/nowhere" Npm []) (demoState [])
       = ((newScan "/nowhere" Npm [], Some e),
          withTrace (demoState []) [EvChdir "/nowhere"]).
Proof.
  apply (executeScaScan_chdir_failure npmProject "https://xray.example"
           (newScan "/nowhere" Npm []) (demoState [])).
  apply (bool_decide_unpack _). vm_compute. exact I.
Defined.

Lemma runScaScan_error_mentions_failed_units_witness :
  ∃ agg,
    (runScaScan npmBroken [] (demoState [])).1.2 = Some agg
    ∧ mentions (Error agg)
        ("audit command in '/repo/app' failed:" +:+ nl
         +:+ Error (buildFailed Npm (errorString "npm ls failed")))
    ∧ mentions (Error agg) "failed while building 'npm' dependency tree:".
Proof.
  destruct (runScaScan_error_mentions_failed_units npmBroken [] (demoState [])
              "https://xray.example" "[]" npmScan
              (buildFailed Npm (errorString "npm ls failed")))
    as (agg & Hagg & Hwd & Htech).
  - apply (bool_decide_unpack _). vm_compute. exact I.
  - reflexivity.
  - vm_compute. discriminate.
  - reflexivity.
  - vm_compute. apply list_elem_of_here.
  - exists agg. split_and!; [exact Hagg|exact Hwd|].
    exact (Htech Npm (errorString "npm ls failed") eq_refl).
Defined.

Lemma getDirectDependenciesFromTree_set_witness :
  getDirectDependenciesFromTree npmProject [npmTree; npmTree]
  ≡ₚ getDirectDependenciesFromTree npmProject [npmTree].
Proof.
  apply (getDirectDependenciesFromTree_set npmProject
           [npmTree; npmTree] [npmTree]).
  intros x. split; intros (t & Ht & Hx); exists npmTree.
  - apply elem_of_cons in Ht as [->|Ht];
      [|apply list_elem_of_singleton in Ht as ->];
      (split; [apply list_elem_of_here|exact Hx]).
  - apply list_elem_of_singleton in Ht as ->.
    split; [apply list_elem_of_here|exact Hx].
Defined.

(** * The repository-template questionnaire ([artifactory/commands/repository/template.go])

    The callbacks that steer the questionnaire and the tables they read.
    The questionnaire engine itself ([ioutils]) is outside: its constants,
    [GetSuggestsFromKeys] and [AskQuestion] are parameters. *)

Module Template.

(** Strings for prompt questions *)
Definition TemplateType : string := "templateType".
Definition Create : string := "create".
Definition Update : string := "update".
Definition MandatoryUrl : string := "mandatoryUrl".

(** Common repository configuration JSON keys *)
Definition Key : string := "key".
Definition Rclass : string := "rclass".
Definition PackageType : string := "packageType".
Definition Description : string := "description".
Definition Notes : string := "notes".
Definition IncludePatterns : string := "includesPattern".
Definition ExcludePatterns : string := "excludesPattern".
Definition RepoLayoutRef : string := "repoLayoutRef".
Definition ProjectKey : string := "projectKey".
Definition Environment : string := "environment".

(** Mutual local and remote repository configuration JSON keys *)
Definition HandleReleases : string := "handleReleases".
Definition HandleSnapshots : string := "handleSnapshots".
Definition MaxUniqueSnapshots : string := "maxUniqueSnapshots".
Definition SuppressPomConsistencyChecks : string := "suppressPomConsistencyChecks".
Definition BlackedOut : string := "blackedOut".
Definition XrayIndex : string := "xrayIndex".
Definition PropertySets : string := "propertySets".
Definition DownloadRedirect : string := "downloadRedirect".
Definition BlockPushingSchema1 : string := "blockPushingSchema1".

(** Mutual local and virtual repository configuration JSON keys *)
Definition DebianTrivialLayout : string := "debianTrivialLayout".
Definition OptionalIndexCompressionFormats : string := "optionalIndexCompressionFormats".
Definition PrimaryKeyPairRef : string := "primaryKeyPairRef".

(** Mutual remote and virtual repository configuration JSON keys *)
Definition ExternalDependenciesEnabled : string := "externalDependenciesEnabled".
Definition ExternalDependenciesPatterns : string := "externalDependenciesPatterns".

(** Unique local repository configuration JSON keys *)
Definition ChecksumPolicyType : string := "checksumPolicyType".
Definition MaxUniqueTags : string := "maxUniqueTags".
Definition SnapshotVersionBehavior : string := "snapshotVersionBehavior".
Definition ArchiveBrowsingEnabled : string := "archiveBrowsingEnabled".
Definition CalculateYumMetadata : string := "calculateYumMetadata".
Definition YumRootDepth : string := "yumRootDepth".
Definition DockerApiVersion : string := "dockerApiVersion".
Definition EnableFileListsIndexing : string := "enableFileListsIndexing".
Definition ForceNugetAuthentication : string := "forceNugetAuthentication".

(** Unique remote repository configuration JSON keys *)
Definition Url : string := "url".
Definition Username : string := "username".
Definition Password : string := "password".
Definition Proxy : string := "proxy".
Definition RemoteRepoChecksumPolicyType : string := "remoteRepoChecksumPolicyType".
Definition HardFail : string := "hardFail".
Definition Offline : string := "offline".
Definition StoreArtifactsLocally : string := "storeArtifactsLocally".
Definition SocketTimeoutMillis : string := "socketTimeoutMillis".
Definition LocalAddress : string := "localAddress".
Definition RetrievalCachePeriodSecs : string := "retrievalCachePeriodSecs".
Definition FailedRetrievalCachePeriodSecs : string := "failedRetrievalCachePeriodSecs".
Definition MissedRetrievalCachePeriodSecs : string := "missedRetrievalCachePeriodSecs".
Definition UnusedArtifactsCleanupEnabled : string := "unusedArtifactsCleanupEnabled".
Definition UnusedArtifactsCleanupPeriodHours : string := "unusedArtifactsCleanupPeriodHours".
Definition AssumedOfflinePeriodSecs : string := "assumedOfflinePeriodSecs".
Definition FetchJarsEagerly : string := "fetchJarsEagerly".
Definition FetchSourcesEagerly : string := "fetchSourcesEagerly".
Definition RejectInvalidJars : string := "rejectInvalidJars".
Definition ShareConfiguration : string := "shareConfiguration".
Definition SynchronizeProperties : string := "synchronizeProperties".
Definition BlockMismatchingMimeTypes : string := "blockMismatchingMimeTypes".
Definition AllowAnyHostAuth : string := "allowAnyHostAuth".
Definition EnableCookieManagement : string := "enableCookieManagement".
Definition BowerRegistryUrl : string := "bowerRegistryUrl".
Definition ComposerRegistryUrl : string := "composerRegistryUrl".
Definition PyPIRegistryUrl : string := "pyPIRegistryUrl".
Definition VcsType : string := "vcsType".
Definition VcsGitProvider : string := "vcsGitProvider".
Definition VcsGitDownloadUrl : string := "vcsGitDownloadUrl".
Definition BypassHeadRequests : string := "bypassHeadRequests".
Definition ClientTlsCertificate : string := "clientTlsCertificate".
Definition FeedContextPath : string := "feedContextPath".
Definition DownloadContextPath : string := "downloadContextPath".
Definition V3FeedUrl : string := "v3FeedUrl".
Definition ContentSynchronisation : string := "contentSynchronisation".
Definition ListRemoteFolderItems : string := "listRemoteFolderItems".
Definition EnableTokenAuthentication : string := "enableTokenAuthentication".
Definition PodsSpecsRepoUrl : string := "podsSpecsRepoUrl".

(** Unique virtual repository configuration JSON keys *)
Definition Repositories : string := "repositories".
Definition ArtifactoryRequestsCanRetrieveRemoteArtifacts : string := "artifactoryRequestsCanRetrieveRemoteArtifacts".
Definition KeyPair : string := "keyPair".
Definition PomRepositoryReferencesCleanupPolicy : string := "pomRepositoryReferencesCleanupPolicy".
Definition DefaultDeploymentRepo : string := "defaultDeploymentRepo".
Definition ForceMavenAuthentication : string := "forceMavenAuthentication".
Definition ExternalDependenciesRemoteRepo : string := "externalDependenciesRemoteRepo".

(** rclasses *)
Definition Local : string := "local".
Definition Remote : string := "remote".
Definition Virtual : string := "virtual".
Definition Federated : string := "federated".

(** PackageTypes *)
Definition Generic : string := "generic".
Definition Maven : string := "maven".
Definition Gradle : string := "gradle".
Definition Ivy : string := "ivy".
Definition Sbt : string := "sbt".
Definition Helm : string := "helm".
Definition Cocoapods : string := "cocoapods".
Definition Opkg : string := "opkg".
Definition Rpm : string := "rpm".
Definition Nuget : string := "nuget".
Definition Cran : string := "cran".
Definition Gems : string := "gems".
Definition Npm : string := "npm".
Definition Bower : string := "bower".
Definition Debian : string := "debian".
Definition Composer : string := "composer".
Definition Pypi : string := "pypi".
Definition Docker : string := "docker".
Definition Vagrant : string := "vagrant".
Definition Gitlfs : string := "gitlfs".
Definition Go : string := "go".
Definition Yum : string := "yum".
Definition Conan : string := "conan".
Definition Chef : string := "chef".
Definition Puppet : string := "puppet".
Definition Vcs : string := "vcs".
Definition Alpine : string := "alpine".
Definition Conda : string := "conda".
Definition P2 : string := "p2".

(** Repo layout Refs *)
Definition BowerDefaultRepoLayout : string := "bower-default".
Definition buildDefaultRepoLayout : string := "build-default".
Definition ComposerDefaultRepoLayout : string := "composer-default".
Definition ConanDefaultRepoLayout : string := "conan-default".
Definition GoDefaultRepoLayout : string := "go-default".
Definition GradleDefaultRepoLayout : string := "maven-2-default".
Definition IvyDefaultRepoLayout : string := "ivy-default".
Definition Maven1DefaultRepoLayout : string := "maven-1-default".
Definition Maven2DefaultRepoLayout : string := "maven-2-default".
Definition NpmDefaultRepoLayout : string := "npm-default".
Definition NugetDefaultRepoLayout : string := "nuget-default".
Definition puppetDefaultRepoLayout : string := "puppet-default".
Definition SbtDefaultRepoLayout : string := "sbt-default".
Definition SimpleDefaultRepoLayout : string := "simple-default".
Definition VcsDefaultRepoLayout : string := "vcs-default".

(** Checksum Policies *)
Definition ClientChecksumPolicy : string := "client-checksums".
Definition ServerGeneratedChecksumsPolicy : string := "server-generated-checksums".

(** Snapshot version behaviors *)
Definition UniqueBehavior : string := "unique".
Definition NonUniqueBehavior : string := "non-unique".
Definition DeployerBehavior : string := "deployer".

(** Optional index compression formats *)
Definition Bz2Compression : string := "bz2".
Definition LzmaCompression : string := "lzma".
Definition XzCompression : string := "xz".

(** Docker api versions *)
Definition DockerApiV1 : string := "V1".
Definition DockerApiV2 : string := "V2".

(** Remote repo checksum policies *)
Definition GenerateIfAbsentPolicy : string := "generate-if-absent".
Definition FailPolicy : string := "fail".
Definition IgnoreAndGeneratePolicy : string := "ignore-and-generate".
Definition PassThruPolicy : string := "pass-thru".

(** Vcs Types *)
Definition Git : string := "GIT".

(** Vcs git provider *)
Definition GithubVcsProvider : string := "GITHUB".
Definition BitbucketVcsProvider : string := "BITBUCKET".
Definition OldstashVcsProvider : string := "OLDSTASH".
Definition StashVcsProvider : string := "STASH".
Definition ArtifactoryVcsProvider : string := "ARTIFACTORY".
Definition CustomVcsProvider : string := "CUSTOM".

(** POM repository references cleanup policies *)
Definition DiscardActiveRefrencePolicy : string := "discard_active_reference".
Definition DiscardAnyReferencePolicy : string := "discard_any_reference".
Definition NothingPolicy : string := "nothing".

(** [prompt.Suggest] *)
Record Suggest : Type := mkSuggest {
  SuggestText : string;
  SuggestDescription : string
}.

(** [{Text: key}] *)
Definition suggestOf (key : string) : Suggest := mkSuggest key "".

(** A value of the answers map ([interface{}]): a string, or anything else. *)
Inductive Answer (Other : Type) : Type :=
  | AString (s : string)
  | AOther (v : Other).
Arguments AString {Other} s.
Arguments AOther {Other} v.

(** [answer == constant], for a string constant. *)
Definition isString {Other : Type} (a : Answer Other) (s : string) : bool :=
  match a with
  | AString s' => bool_decide (s' = s)
  | AOther _ => false
  end.

Inductive WriterRef : Type := WriteStringAnswer.

Inductive CallbackRef : Type :=
  | rclassCallbackRef
  | pkgTypeCallbackRef
  | projectKeyCallbackRef
  | contentSynchronisationCallBackRef
  | OptionalKeyCallbackRef.

(** [ioutils.QuestionInfo] *)
Record QuestionInfo : Type := mkQuestionInfo {
  Options : list Suggest;
  Msg : string;
  PromptPrefix : string;
  AllowVars : bool;
  Writer : option WriterRef;
  MapKey : string;
  Callback : option CallbackRef
}.

Definition zeroQuestionInfo : QuestionInfo :=
  mkQuestionInfo [] "" "" false None "" None.

(** The fields of [ioutils.InteractiveQuestionnaire] the callbacks use. *)
Record InteractiveQuestionnaire (Other : Type) : Type := mkQuestionnaire {
  AnswersMap : gmap string (Answer Other);
  OptionalKeysSuggests : list Suggest;
  QuestionsMap : gmap string QuestionInfo
}.
Arguments mkQuestionnaire {Other} _ _ _.
Arguments AnswersMap {Other} _.
Arguments OptionalKeysSuggests {Other} _.
Arguments QuestionsMap {Other} _.

Section Questionnaire.

Context {Other : Type}.

(** [ioutils.SaveAndExit], [ioutils.OptionalKey], [ioutils.PressTabMsg] *)
Variable SaveAndExit : string.
Variable OptionalKey : string.
Variable PressTabMsg : string.

(** [fmt.Sprint] on the values that are not strings. *)
Variable SprintOther : Other → string.

(** [ioutils.GetSuggestsFromKeys] and [iq.AskQuestion]. *)
Variable GetSuggestsFromKeys : list string → gmap string Suggest → list Suggest.
Variable AskQuestion :
  QuestionInfo → InteractiveQuestionnaire Other →
  (string * option error) * InteractiveQuestionnaire Other.

(** ** The tables *)

Definition baseLocalRepoConfKeys : list string :=
  [Description; Notes; IncludePatterns; ExcludePatterns; RepoLayoutRef;
   ProjectKey; Environment; BlackedOut; XrayIndex; PropertySets;
   ArchiveBrowsingEnabled; OptionalIndexCompressionFormats; DownloadRedirect;
   BlockPushingSchema1].

Definition mavenGradleLocalRepoConfKeys : list string :=
  [MaxUniqueSnapshots; HandleReleases; HandleSnapshots;
   SuppressPomConsistencyChecks; SnapshotVersionBehavior; ChecksumPolicyType].

Definition rpmLocalRepoConfKeys : list string :=
  [YumRootDepth; CalculateYumMetadata; EnableFileListsIndexing;
   PrimaryKeyPairRef].

Definition nugetLocalRepoConfKeys : list string :=
  [MaxUniqueSnapshots; ForceNugetAuthentication].

Definition debianLocalRepoConfKeys : list string :=
  [DebianTrivialLayout; PrimaryKeyPairRef].

Definition dockerLocalRepoConfKeys : list string :=
  [DockerApiVersion; MaxUniqueTags].

Definition baseRemoteRepoConfKeys : list string :=
  [Username; Password; Proxy; Description; Notes; IncludePatterns;
   ExcludePatterns; RepoLayoutRef; ProjectKey; Environment; HardFail;
   Offline; BlackedOut; XrayIndex; StoreArtifactsLocally;
   SocketTimeoutMillis; LocalAddress; RetrievalCachePeriodSecs;
   FailedRetrievalCachePeriodSecs; MissedRetrievalCachePeriodSecs;
   UnusedArtifactsCleanupEnabled; UnusedArtifactsCleanupPeriodHours;
   AssumedOfflinePeriodSecs; ShareConfiguration; SynchronizeProperties;
   BlockMismatchingMimeTypes; PropertySets; AllowAnyHostAuth;
   EnableCookieManagement; BypassHeadRequests; ClientTlsCertificate;
   DownloadRedirect; BlockPushingSchema1; ContentSynchronisation].

Definition mavenGradleRemoteRepoConfKeys : list string :=
  [FetchJarsEagerly; FetchSourcesEagerly; RemoteRepoChecksumPolicyType;
   HandleReleases; HandleSnapshots; SuppressPomConsistencyChecks;
   RejectInvalidJars].

Definition cocoapodsRemoteRepoConfKeys : list string :=
  [PodsSpecsRepoUrl].

Definition opkgRemoteRepoConfKeys : list string :=
  [ListRemoteFolderItems].

Definition rpmRemoteRepoConfKeys : list string :=
  [ListRemoteFolderItems].

Definition nugetRemoteRepoConfKeys : list string :=
  [FeedContextPath; DownloadContextPath; V3FeedUrl; ForceNugetAuthentication].

Definition gemsRemoteRepoConfKeys : list string :=
  [ListRemoteFolderItems].

Definition npmRemoteRepoConfKeys : list string :=
  [ListRemoteFolderItems].

Definition bowerRemoteRepoConfKeys : list string :=
  [BowerRegistryUrl].

Definition debianRemoteRepoConfKeys : list string :=
  [ListRemoteFolderItems].

Definition composerRemoteRepoConfKeys : list string :=
  [ComposerRegistryUrl].

Definition pypiRemoteRepoConfKeys : list string :=
  [PyPIRegistryUrl; ListRemoteFolderItems].

Definition dockerRemoteRepoConfKeys : list string :=
  [ExternalDependenciesEnabled; ExternalDependenciesPatterns;
   EnableTokenAuthentication].

Definition gitlfsRemoteRepoConfKeys : list string :=
  [ListRemoteFolderItems].

Definition vcsRemoteRepoConfKeys : list string :=
  [VcsGitProvider; VcsType; MaxUniqueSnapshots; VcsGitDownloadUrl;
   ListRemoteFolderItems].

Definition baseVirtualRepoConfKeys : list string :=
  [Repositories; Description; Notes; IncludePatterns; ExcludePatterns;
   RepoLayoutRef; ProjectKey; Environment;
   ArtifactoryRequestsCanRetrieveRemoteArtifacts; DefaultDeploymentRepo;
   OptionalIndexCompressionFormats; PrimaryKeyPairRef].

Definition mavenGradleVirtualRepoConfKeys : list string :=
  [ForceMavenAuthentication; PomRepositoryReferencesCleanupPolicy; KeyPair].

Definition nugetVirtualRepoConfKeys : list string :=
  [ForceNugetAuthentication].

Definition npmVirtualRepoConfKeys : list string :=
  [ExternalDependenciesEnabled; ExternalDependenciesPatterns;
   ExternalDependenciesRemoteRepo].

Definition bowerVirtualRepoConfKeys : list string :=
  [ExternalDependenciesEnabled; ExternalDependenciesPatterns;
   ExternalDependenciesRemoteRepo].

Definition debianVirtualRepoConfKeys : list string :=
  [DebianTrivialLayout].

Definition goVirtualRepoConfKeys : list string :=
  [ExternalDependenciesEnabled; ExternalDependenciesPatterns].

Definition commonPkgTypes : list string :=
  [Maven; Gradle; Ivy; Sbt; Helm; Rpm; Nuget; Cran; Gems; Npm; Bower; Debian;
   Pypi; Docker; Gitlfs; Go; Conan; Chef; Puppet; Alpine; Generic].

Definition localRepoAdditionalPkgTypes : list string :=
  [Cocoapods; Opkg; Composer; Vagrant; Yum].

Definition remoteRepoAdditionalPkgTypes : list string :=
  [Cocoapods; Opkg; Composer; Conda; P2; Vcs; Yum].

Definition virtualRepoAdditionalPkgTypes : list string :=
  [Conda; P2; Yum].

Definition federatedRepoAdditionalPkgTypes : list string :=
  [Vagrant; Opkg; Conda; Composer; Cocoapods].

Definition optionalSuggestsMapEntries : list (string * Suggest) :=
  [(SaveAndExit, suggestOf SaveAndExit);
   (Description, suggestOf Description); (Notes, suggestOf Notes);
   (IncludePatterns, suggestOf IncludePatterns);
   (ExcludePatterns, suggestOf ExcludePatterns);
   (RepoLayoutRef, suggestOf RepoLayoutRef);
   (ProjectKey, suggestOf ProjectKey); (Environment, suggestOf Environment);
   (HandleReleases, suggestOf HandleReleases);
   (HandleSnapshots, suggestOf HandleSnapshots);
   (MaxUniqueSnapshots, suggestOf MaxUniqueSnapshots);
   (SuppressPomConsistencyChecks, suggestOf SuppressPomConsistencyChecks);
   (BlackedOut, suggestOf BlackedOut);
   (DownloadRedirect, suggestOf DownloadRedirect);
   (BlockPushingSchema1, suggestOf BlockPushingSchema1);
   (DebianTrivialLayout, suggestOf DebianTrivialLayout);
   (ExternalDependenciesEnabled, suggestOf ExternalDependenciesEnabled);
   (ExternalDependenciesPatterns, suggestOf ExternalDependenciesPatterns);
   (ChecksumPolicyType, suggestOf ChecksumPolicyType);
   (MaxUniqueTags, suggestOf MaxUniqueTags);
   (SnapshotVersionBehavior, suggestOf SnapshotVersionBehavior);
   (XrayIndex, suggestOf XrayIndex); (PropertySets, suggestOf PropertySets);
   (ArchiveBrowsingEnabled, suggestOf ArchiveBrowsingEnabled);
   (CalculateYumMetadata, suggestOf CalculateYumMetadata);
   (YumRootDepth, suggestOf YumRootDepth);
   (DockerApiVersion, suggestOf DockerApiVersion);
   (EnableFileListsIndexing, suggestOf EnableFileListsIndexing);
   (OptionalIndexCompressionFormats, suggestOf OptionalIndexCompressionFormats);
   (Url, suggestOf Url); (Username, suggestOf Username);
   (Password, suggestOf Password); (Proxy, suggestOf Proxy);
   (PrimaryKeyPairRef, suggestOf PrimaryKeyPairRef);
   (RemoteRepoChecksumPolicyType, suggestOf RemoteRepoChecksumPolicyType);
   (HardFail, suggestOf HardFail); (Offline, suggestOf Offline);
   (StoreArtifactsLocally, suggestOf StoreArtifactsLocally);
   (SocketTimeoutMillis, suggestOf SocketTimeoutMillis);
   (LocalAddress, suggestOf LocalAddress);
   (RetrievalCachePeriodSecs, suggestOf RetrievalCachePeriodSecs);
   (FailedRetrievalCachePeriodSecs, suggestOf FailedRetrievalCachePeriodSecs);
   (MissedRetrievalCachePeriodSecs, suggestOf MissedRetrievalCachePeriodSecs);
   (UnusedArtifactsCleanupEnabled, suggestOf UnusedArtifactsCleanupEnabled);
   (UnusedArtifactsCleanupPeriodHours, suggestOf UnusedArtifactsCleanupPeriodHours);
   (AssumedOfflinePeriodSecs, suggestOf AssumedOfflinePeriodSecs);
   (FetchJarsEagerly, suggestOf FetchJarsEagerly);
   (FetchSourcesEagerly, suggestOf FetchSourcesEagerly);
   (RejectInvalidJars, suggestOf RejectInvalidJars);
   (ShareConfiguration, suggestOf ShareConfiguration);
   (SynchronizeProperties, suggestOf SynchronizeProperties);
   (BlockMismatchingMimeTypes, suggestOf BlockMismatchingMimeTypes);
   (AllowAnyHostAuth, suggestOf AllowAnyHostAuth);
   (EnableCookieManagement, suggestOf EnableCookieManagement);
   (BowerRegistryUrl, suggestOf BowerRegistryUrl);
   (ComposerRegistryUrl, suggestOf ComposerRegistryUrl);
   (PyPIRegistryUrl, suggestOf PyPIRegistryUrl);
   (VcsType, suggestOf VcsType); (VcsGitProvider, suggestOf VcsGitProvider);
   (VcsGitDownloadUrl, suggestOf VcsGitDownloadUrl);
   (BypassHeadRequests, suggestOf BypassHeadRequests);
   (ClientTlsCertificate, suggestOf ClientTlsCertificate);
   (FeedContextPath, suggestOf FeedContextPath);
   (DownloadContextPath, suggestOf DownloadContextPath);
   (V3FeedUrl, suggestOf V3FeedUrl);
   (ContentSynchronisation, suggestOf ContentSynchronisation);
   (ListRemoteFolderItems, suggestOf ListRemoteFolderItems);
   (PodsSpecsRepoUrl, suggestOf PodsSpecsRepoUrl);
   (EnableTokenAuthentication, suggestOf EnableTokenAuthentication);
   (Repositories, suggestOf Repositories);
   (ArtifactoryRequestsCanRetrieveRemoteArtifacts, suggestOf ArtifactoryRequestsCanRetrieveRemoteArtifacts);
   (KeyPair, suggestOf KeyPair);
   (PomRepositoryReferencesCleanupPolicy, suggestOf PomRepositoryReferencesCleanupPolicy);
   (DefaultDeploymentRepo, suggestOf DefaultDeploymentRepo);
   (ForceMavenAuthentication, suggestOf ForceMavenAuthentication);
   (ForceNugetAuthentication, suggestOf ForceNugetAuthentication);
   (ExternalDependenciesRemoteRepo, suggestOf ExternalDependenciesRemoteRepo)].

Definition optionalSuggestsMap : gmap string Suggest :=
  list_to_map optionalSuggestsMapEntries.

Definition pkgTypeSuggestsMapEntries : list (string * Suggest) :=
  [(Generic, suggestOf Generic); (Maven, suggestOf Maven);
   (Gradle, suggestOf Gradle); (Ivy, suggestOf Ivy); (Sbt, suggestOf Sbt);
   (Helm, suggestOf Helm); (Cocoapods, suggestOf Cocoapods);
   (Opkg, suggestOf Opkg); (Rpm, suggestOf Rpm); (Nuget, suggestOf Nuget);
   (Cran, suggestOf Cran); (Gems, suggestOf Gems); (Npm, suggestOf Npm);
   (Bower, suggestOf Bower); (Debian, suggestOf Debian);
   (Composer, suggestOf Composer); (Pypi, suggestOf Pypi);
   (Docker, suggestOf Docker); (Vagrant, suggestOf Vagrant);
   (Gitlfs, suggestOf Gitlfs); (Go, suggestOf Go); (Yum, suggestOf Yum);
   (Conan, suggestOf Conan); (Chef, suggestOf Chef);
   (Puppet, suggestOf Puppet); (Vcs, suggestOf Vcs);
   (Conda, suggestOf Conda); (P2, suggestOf P2); (Alpine, suggestOf Alpine)].

Definition pkgTypeSuggestsMap : gmap string Suggest :=
  list_to_map pkgTypeSuggestsMapEntries.

Definition questionMapKeys : list string :=
  [TemplateType; OptionalKey; Key; Rclass; MandatoryUrl; Url; Description;
   Notes; IncludePatterns; ExcludePatterns; RepoLayoutRef; ProjectKey;
   Environment; HandleReleases; HandleSnapshots; MaxUniqueSnapshots;
   SuppressPomConsistencyChecks; BlackedOut; DownloadRedirect;
   BlockPushingSchema1; DebianTrivialLayout; ExternalDependenciesEnabled;
   ExternalDependenciesPatterns; ChecksumPolicyType; MaxUniqueTags;
   SnapshotVersionBehavior; XrayIndex; PropertySets; ArchiveBrowsingEnabled;
   CalculateYumMetadata; YumRootDepth; DockerApiVersion;
   EnableFileListsIndexing; OptionalIndexCompressionFormats;
   PrimaryKeyPairRef; Username; Password; Proxy;
   RemoteRepoChecksumPolicyType; HardFail; Offline; StoreArtifactsLocally;
   SocketTimeoutMillis; LocalAddress; RetrievalCachePeriodSecs;
   FailedRetrievalCachePeriodSecs; MissedRetrievalCachePeriodSecs;
   UnusedArtifactsCleanupEnabled; UnusedArtifactsCleanupPeriodHours;
   AssumedOfflinePeriodSecs; FetchJarsEagerly; FetchSourcesEagerly;
   RejectInvalidJars; ShareConfiguration; SynchronizeProperties;
   BlockMismatchingMimeTypes; AllowAnyHostAuth; EnableCookieManagement;
   BowerRegistryUrl; ComposerRegistryUrl; PyPIRegistryUrl; VcsType;
   VcsGitProvider; VcsGitDownloadUrl; BypassHeadRequests;
   ClientTlsCertificate; FeedContextPath; DownloadContextPath; V3FeedUrl;
   ListRemoteFolderItems; EnableTokenAuthentication; PodsSpecsRepoUrl;
   ContentSynchronisation; Repositories;
   ArtifactoryRequestsCanRetrieveRemoteArtifacts; KeyPair;
   PomRepositoryReferencesCleanupPolicy; DefaultDeploymentRepo;
   ForceMavenAuthentication; ForceNugetAuthentication;
   ExternalDependenciesRemoteRepo].

(** ** The callbacks *)

(** [fmt.Sprint] of an answer: a string prints as itself. *)
Definition Sprint (a : Answer Other) : string :=
  match a with
  | AString s => s
  | AOther v => SprintOther v
  end.

Definition setOptionalKeysSuggests (suggests : list Suggest)
    (iq : InteractiveQuestionnaire Other) : InteractiveQuestionnaire Other :=
  mkQuestionnaire (AnswersMap iq) suggests (QuestionsMap iq).

Definition setAnswersMap (answers : gmap string (Answer Other))
    (iq : InteractiveQuestionnaire Other) : InteractiveQuestionnaire Other :=
  mkQuestionnaire answers (OptionalKeysSuggests iq) (QuestionsMap iq).

(** The [optionalKeys] of [getLocalRepoConfKeys]. *)
Definition localRepoOptionalKeys (pkgType : string) : list string :=
  let optionalKeys := [SaveAndExit] in
  let optionalKeys := optionalKeys ++ baseLocalRepoConfKeys in
  if bool_decide (pkgType = Maven ∨ pkgType = Gradle)
  then optionalKeys ++ mavenGradleLocalRepoConfKeys
  else if bool_decide (pkgType = Rpm) then optionalKeys ++ rpmLocalRepoConfKeys
  else if bool_decide (pkgType = Nuget) then optionalKeys ++ nugetLocalRepoConfKeys
  else if bool_decide (pkgType = Debian) then optionalKeys ++ debianLocalRepoConfKeys
  else if bool_decide (pkgType = Docker) then optionalKeys ++ dockerLocalRepoConfKeys
  else optionalKeys.

Definition getLocalRepoConfKeys (pkgType : string) : list Suggest :=
  GetSuggestsFromKeys (localRepoOptionalKeys pkgType) optionalSuggestsMap.

(** The [optionalKeys] of [getRemoteRepoConfKeys]. *)
Definition remoteRepoOptionalKeys (pkgType templateType : string) : list string :=
  let optionalKeys := [SaveAndExit] in
  let optionalKeys :=
    if bool_decide (templateType = Update) then optionalKeys ++ [Url]
    else optionalKeys in
  let optionalKeys := optionalKeys ++ baseRemoteRepoConfKeys in
  if bool_decide (pkgType = Maven ∨ pkgType = Gradle)
  then optionalKeys ++ mavenGradleRemoteRepoConfKeys
  else if bool_decide (pkgType = Cocoapods) then optionalKeys ++ cocoapodsRemoteRepoConfKeys
  else if bool_decide (pkgType = Opkg) then optionalKeys ++ opkgRemoteRepoConfKeys
  else if bool_decide (pkgType = Rpm) then optionalKeys ++ rpmRemoteRepoConfKeys
  else if bool_decide (pkgType = Nuget) then optionalKeys ++ nugetRemoteRepoConfKeys
  else if bool_decide (pkgType = Gems) then optionalKeys ++ gemsRemoteRepoConfKeys
  else if bool_decide (pkgType = Npm) then optionalKeys ++ npmRemoteRepoConfKeys
  else if bool_decide (pkgType = Bower) then optionalKeys ++ bowerRemoteRepoConfKeys
  else if bool_decide (pkgType = Debian) then optionalKeys ++ debianRemoteRepoConfKeys
  else if bool_decide (pkgType = Composer) then optionalKeys ++ composerRemoteRepoConfKeys
  else if bool_decide (pkgType = Pypi) then optionalKeys ++ pypiRemoteRepoConfKeys
  else if bool_decide (pkgType = Docker) then optionalKeys ++ dockerRemoteRepoConfKeys
  else if bool_decide (pkgType = Gitlfs) then optionalKeys ++ gitlfsRemoteRepoConfKeys
  else if bool_decide (pkgType = Vcs) then optionalKeys ++ vcsRemoteRepoConfKeys
  else optionalKeys.

Definition getRemoteRepoConfKeys (pkgType templateType : string) : list Suggest :=
  GetSuggestsFromKeys (remoteRepoOptionalKeys pkgType templateType)
                      optionalSuggestsMap.

(** The [optionalKeys] of [getVirtualRepoConfKeys]. *)
Definition virtualRepoOptionalKeys (pkgType : string) : list string :=
  let optionalKeys := [SaveAndExit] in
  let optionalKeys := optionalKeys ++ baseVirtualRepoConfKeys in
  if bool_decide (pkgType = Maven ∨ pkgType = Gradle)
  then optionalKeys ++ mavenGradleVirtualRepoConfKeys
  else if bool_decide (pkgType = Nuget) then optionalKeys ++ nugetVirtualRepoConfKeys
  else if bool_decide (pkgType = Npm) then optionalKeys ++ npmVirtualRepoConfKeys
  else if bool_decide (pkgType = Bower) then optionalKeys ++ bowerVirtualRepoConfKeys
  else if bool_decide (pkgType = Debian) then optionalKeys ++ debianVirtualRepoConfKeys
  else if bool_decide (pkgType = Go) then optionalKeys ++ goVirtualRepoConfKeys
  else optionalKeys.

Definition getVirtualRepoConfKeys (pkgType : string) : list Suggest :=
  GetSuggestsFromKeys (virtualRepoOptionalKeys pkgType) optionalSuggestsMap.

Definition CallbackResult : Type :=
  (string * option error) * InteractiveQuestionnaire Other.

Definition errors_New (msg : string) : option error := Some (errorString msg).

Definition pkgTypeCallback (iq : InteractiveQuestionnaire Other)
    (pkgType : string) : CallbackResult :=
  match AnswersMap iq !! Rclass with
  | None => (("", errors_New "rclass is missing in configuration map"), iq)
  | Some rclass =>
      let chosen : option error + list Suggest :=
        if isString rclass Local then inr (getLocalRepoConfKeys pkgType)
        else if isString rclass Remote then
          match AnswersMap iq !! TemplateType with
          | None => inl (errors_New "package type is missing in configuration map")
          | Some templateType =>
              inr (getRemoteRepoConfKeys pkgType (Sprint templateType))
          end
        else if isString rclass Virtual then inr (getVirtualRepoConfKeys pkgType)
        else if isString rclass Federated then inr (getLocalRepoConfKeys pkgType)
        else inl (errors_New "unsupported rclass was configured") in
      match chosen with
      | inl err => (("", err), iq)
      | inr suggests =>
          let iq := setOptionalKeysSuggests suggests iq in
          (("", None), setAnswersMap (delete TemplateType (AnswersMap iq)) iq)
      end
  end.

Definition projectKeyCallback (iq : InteractiveQuestionnaire Other)
    (projectKey : string) : CallbackResult :=
  match AnswersMap iq !! Key with
  | None =>
      (("", CheckErrorf "repository key is missing in configuration map"), iq)
  | Some answer =>
      let requiredProjectPrefix := projectKey +:+ "-" in
      match answer with
      | AString currentRepoKey =>
          if negb (String.prefix requiredProjectPrefix currentRepoKey)
          then
            let newRepoKey := requiredProjectPrefix +:+ currentRepoKey in
            (("", None),
             setAnswersMap (<[Key := AString newRepoKey]> (AnswersMap iq)) iq)
          else (("", None), iq)
      | AOther _ =>
          (("", CheckErrorf "template syntax error: the value for the repository key is not a string type"),
           iq)
      end
  end.

(** The question [rclassCallback] asks about the package type. *)
Definition pkgTypeQuestion (pkgTypes : list string) : QuestionInfo :=
  {| Options := GetSuggestsFromKeys pkgTypes pkgTypeSuggestsMap;
     Msg := "";
     PromptPrefix := "Select the repository's package type" +:+ PressTabMsg;
     AllowVars := false;
     Writer := Some WriteStringAnswer;
     MapKey := PackageType;
     Callback := Some pkgTypeCallbackRef |}.

Definition rclassCallback (iq : InteractiveQuestionnaire Other)
    (rclass : string) : CallbackResult :=
  let pkgTypes := commonPkgTypes in
  if bool_decide (rclass = Remote) then
    match AnswersMap iq !! TemplateType with
    | None => (("", errors_New "package type is missing in configuration map"), iq)
    | Some templateType =>
        let '(urlErr, iq) :=
          if isString templateType Create
          then
            let '((_, err), iq) :=
              AskQuestion (default zeroQuestionInfo (QuestionsMap iq !! MandatoryUrl))
                          iq in
            (err, iq)
          else (None, iq) in
        match urlErr with
        | Some err => (("", Some err), iq)
        | None =>
            AskQuestion (pkgTypeQuestion (pkgTypes ++ remoteRepoAdditionalPkgTypes)) iq
        end
    end
  else if bool_decide (rclass = Local) then
    AskQuestion (pkgTypeQuestion (pkgTypes ++ localRepoAdditionalPkgTypes)) iq
  else if bool_decide (rclass = Virtual) then
    AskQuestion (pkgTypeQuestion (pkgTypes ++ virtualRepoAdditionalPkgTypes)) iq
  else if bool_decide (rclass = Federated) then
    AskQuestion (pkgTypeQuestion (pkgTypes ++ federatedRepoAdditionalPkgTypes)) iq
  else (("", errors_New "unsupported rclass"), iq).

(** ** The project-key callback *)

Lemma prefix_append (p s : string) : String.prefix p (p +:+ s) = true.
Proof.
  induction p as [|c p IH]; simpl; [by destruct s|].
  destruct (Ascii.ascii_dec c c) as [_|Hne]; [exact IH|by destruct Hne].
Qed.

(** X15: when the repository key is a string, [projectKeyCallback]
    succeeds and leaves a key that starts with "<projectKey>-": the old key
    when it already did, the old key with that prefix put in front
    otherwise.  No other answer changes, and a second call changes
    nothing. *)
Theorem projectKeyCallback_prefixes
    (iq : InteractiveQuestionnaire Other) (projectKey k : string) :
  AnswersMap iq !! Key = Some (AString k) →
  (projectKeyCallback iq projectKey).1 = ("", None)
  ∧ (∃ k',
       AnswersMap (projectKeyCallback iq projectKey).2 !! Key = Some (AString k')
       ∧ String.prefix (projectKey +:+ "-") k' = true
       ∧ (k' = k ∨ k' = (projectKey +:+ "-") +:+ k))
  ∧ (∀ j, j ≠ Key →
       AnswersMap (projectKeyCallback iq projectKey).2 !! j = AnswersMap iq !! j)
  ∧ OptionalKeysSuggests (projectKeyCallback iq projectKey).2
    = OptionalKeysSuggests iq
  ∧ projectKeyCallback (projectKeyCallback iq projectKey).2 projectKey
    = (("", None), (projectKeyCallback iq projectKey).2).
Proof.
  intros Hkey.
  destruct (String.prefix (projectKey +:+ "-") k) eqn:Hpre.
  - assert (projectKeyCallback iq projectKey = (("", None), iq)) as Heq.
    { unfold projectKeyCallback. by rewrite Hkey, Hpre. }
    rewrite !Heq. simpl.
    split_and!; [reflexivity| |done|reflexivity|exact Heq].
    exists k. by split_and!; [| |left].
  - assert (projectKeyCallback iq projectKey
            = (("", None),
               setAnswersMap
                 (<[Key := AString ((projectKey +:+ "-") +:+ k)]> (AnswersMap iq))
                 iq)) as Heq.
    { unfold projectKeyCallback. by rewrite Hkey, Hpre. }
    rewrite !Heq. simpl.
    split_and!; [reflexivity| | |reflexivity|].
    + exists ((projectKey +:+ "-") +:+ k).
      split_and!; [apply lookup_insert_eq|apply prefix_append|by right].
    + intros j Hj. by apply lookup_insert_ne.
    + unfold projectKeyCallback, setAnswersMap. simpl.
      rewrite lookup_insert_eq, prefix_append. reflexivity.
Qed.

(** X16: [projectKeyCallback] fails exactly when the answers hold no
    repository key or hold one that is not a string, and then it changes
    nothing. *)
Theorem projectKeyCallback_failure
    (iq : InteractiveQuestionnaire Other) (projectKey : string) :
  match (projectKeyCallback iq projectKey).1.2 with
  | Some _ =>
      (∀ k, AnswersMap iq !! Key ≠ Some (AString k))
      ∧ (projectKeyCallback iq projectKey).2 = iq
  | None => ∃ k, AnswersMap iq !! Key = Some (AString k)
  end.
Proof.
  unfold projectKeyCallback.
  destruct (AnswersMap iq !! Key) as [[k|v]|]; simpl.
  - destruct (negb _); simpl; by exists k.
  - by split.
  - by split.
Qed.

(** ** The optional keys *)

(** The configuration keys of [optionalSuggestsMap]: all but SaveAndExit. *)
Definition configKeys : list string := tail optionalSuggestsMapEntries.*1.

(** The keys of [questionMap] that are spelled out in this file. *)
Definition askableKeys : list string := TemplateType :: drop 2 questionMapKeys.

(** What a list of optional keys should be: SaveAndExit first, no key
    twice, and for every key a suggestion to show and, SaveAndExit apart,
    a question to ask. *)
Definition wellFormedKeys (l : list string) : Prop :=
  head l = Some SaveAndExit
  ∧ NoDup l
  ∧ Forall (λ k, k ∈ dom optionalSuggestsMap
                 ∧ (k = SaveAndExit ∨ k ∈ questionMapKeys)) l.

Lemma configKeys_dom (k : string) : k ∈ configKeys → k ∈ dom optionalSuggestsMap.
Proof.
  intros Hk. unfold optionalSuggestsMap.
  rewrite dom_list_to_map_L, elem_of_list_to_set.
  by apply list_elem_of_further.
Qed.

Lemma askableKeys_questionMapKeys (k : string) :
  k ∈ askableKeys → k ∈ questionMapKeys.
Proof.
  intros Hk. apply elem_of_cons in Hk as [->|Hk].
  - apply list_elem_of_here.
  - by do 2 apply list_elem_of_further.
Qed.

Lemma SaveAndExit_fresh :
  NoDup optionalSuggestsMapEntries.*1 → SaveAndExit ∉ configKeys.
Proof. intros Hnd. by apply NoDup_cons in Hnd as [? _]. Qed.

Lemma wellFormedKeys_intro (rest : list string) :
  NoDup optionalSuggestsMapEntries.*1 →
  bool_decide (NoDup rest
               ∧ Forall (λ k, k ∈ configKeys ∧ k ∈ askableKeys) rest) = true →
  wellFormedKeys (SaveAndExit :: rest).
Proof.
  intros Hnd Hcheck. apply bool_decide_eq_true in Hcheck as [Hrest Hall].
  rewrite Forall_forall in Hall.
  split_and!; [reflexivity| |].
  - apply NoDup_cons. split; [|exact Hrest].
    intros Hin. apply (SaveAndExit_fresh Hnd). by apply Hall.
  - apply Forall_cons. split.
    + split; [|by left]. unfold optionalSuggestsMap.
      rewrite dom_list_to_map_L, elem_of_list_to_set. apply list_elem_of_here.
    + apply Forall_forall. intros k Hk. destruct (Hall k Hk) as [Hc Ha].
      split; [by apply configKeys_dom|right; by apply askableKeys_questionMapKeys].
Qed.

(** X17: whatever the package type and template type, the optional keys
    offered for a local, a remote and a virtual repository are well
    formed: SaveAndExit comes first, no key is offered twice, every key
    has a suggestion in [optionalSuggestsMap], and every key but
    SaveAndExit has a question in [questionMap]. *)
Theorem optional_keys_well_formed (pkgType templateType : string) :
  NoDup optionalSuggestsMapEntries.*1 →
  wellFormedKeys (localRepoOptionalKeys pkgType)
  ∧ wellFormedKeys (remoteRepoOptionalKeys pkgType templateType)
  ∧ wellFormedKeys (virtualRepoOptionalKeys pkgType).
Proof.
  intros Hnd. split_and!.
  - unfold localRepoOptionalKeys.
    repeat case_bool_decide;
      (apply wellFormedKeys_intro; [exact Hnd|vm_compute; reflexivity]).
  - unfold remoteRepoOptionalKeys.
    repeat case_bool_decide;
      (apply wellFormedKeys_intro; [exact Hnd|vm_compute; reflexivity]).
  - unfold virtualRepoOptionalKeys.
    repeat case_bool_decide;
      (apply wellFormedKeys_intro; [exact Hnd|vm_compute; reflexivity]).
Qed.

Lemma Url_absent (rest : list string) :
  NoDup optionalSuggestsMapEntries.*1 →
  bool_decide (Url ∈ configKeys ∧ Url ∉ rest) = true →
  Url ∉ SaveAndExit :: rest.
Proof.
  intros Hnd Hcheck. apply bool_decide_eq_true in Hcheck as [Hc Hrest].
  intros Hin. apply elem_of_cons in Hin as [Heq|Hin]; [|by apply Hrest].
  apply (SaveAndExit_fresh Hnd). by rewrite <- Heq.
Qed.

(** X18: for a remote repository the url is offered as an optional key
    exactly when the template is an update template; for a create template
    it never is, whatever the package type. *)
Theorem remote_url_optional_iff_update (pkgType templateType : string) :
  NoDup optionalSuggestsMapEntries.*1 →
  Url ∈ remoteRepoOptionalKeys pkgType templateType ↔ templateType = Update.
Proof.
  intros Hnd. unfold remoteRepoOptionalKeys.
  destruct (decide (templateType = Update)) as [Hup|Hup].
  - rewrite (bool_decide_true _ Hup). split; [done|]. intros _.
    repeat case_bool_decide; apply list_elem_of_further, list_elem_of_here.
  - rewrite (bool_decide_false _ Hup). split; [|done]. intros Hin.
    exfalso. revert Hin.
    repeat case_bool_decide;
      (apply Url_absent; [exact Hnd|vm_compute; reflexivity]).
Qed.

(** ** The package-type callback *)

(** X19: [pkgTypeCallback] either fails and changes nothing, or succeeds,
    and then the repository class is one of local, remote, virtual and
    federated, the optional keys offered are those of that class for the
    chosen package type (federated as local; remote by the template type,
    which must be present), and the template type is removed from the
    answers, which are otherwise as before. *)
Theorem pkgTypeCallback_outcome
    (iq : InteractiveQuestionnaire Other) (pkgType : string) :
  match (pkgTypeCallback iq pkgType).1.2 with
  | Some _ => (pkgTypeCallback iq pkgType).2 = iq
  | None =>
      AnswersMap (pkgTypeCallback iq pkgType).2
      = delete TemplateType (AnswersMap iq)
      ∧ QuestionsMap (pkgTypeCallback iq pkgType).2 = QuestionsMap iq
      ∧ ∃ rclass,
          AnswersMap iq !! Rclass = Some (AString rclass)
          ∧ (((rclass = Local ∨ rclass = Federated)
              ∧ OptionalKeysSuggests (pkgTypeCallback iq pkgType).2
                = getLocalRepoConfKeys pkgType)
             ∨ (rclass = Virtual
                ∧ OptionalKeysSuggests (pkgTypeCallback iq pkgType).2
                  = getVirtualRepoConfKeys pkgType)
             ∨ (rclass = Remote
                ∧ ∃ templateType,
                    AnswersMap iq !! TemplateType = Some templateType
                    ∧ OptionalKeysSuggests (pkgTypeCallback iq pkgType).2
                      = getRemoteRepoConfKeys pkgType (Sprint templateType)))
  end.
Proof.
  unfold pkgTypeCallback.
  destruct (AnswersMap iq !! Rclass) as [[rclass|v]|]; simpl; [|reflexivity..].
  repeat case_bool_decide; subst; simpl.
  - split_and!; [reflexivity..|]. exists Local. split; [done|]. left. by split; [left|].
  - destruct (AnswersMap iq !! TemplateType) as [tt|] eqn:Htt; simpl; [|reflexivity].
    split_and!; [reflexivity..|]. exists Remote. split; [done|].
    right; right. split; [done|]. by exists tt.
  - split_and!; [reflexivity..|]. exists Virtual. split; [done|]. right; left. by split.
  - split_and!; [reflexivity..|]. exists Federated. split; [done|]. left. by split; [right|].
  - reflexivity.
Qed.

(** ** The repository-class callback *)

(** X20: [rclassCallback] fails without asking anything and without
    changing the questionnaire when the class is none of remote, local,
    virtual and federated, and when it is remote and the answers hold no
    template type. *)
Theorem rclassCallback_rejects
    (iq : InteractiveQuestionnaire Other) (rclass : string) :
  rclass ∉ [Remote; Local; Virtual; Federated]
  ∨ (rclass = Remote ∧ AnswersMap iq !! TemplateType = None) →
  ∃ e, rclassCallback iq rclass = (("", Some e), iq).
Proof.
  intros [Hnot|[-> Hnone]]; unfold rclassCallback.
  - repeat case_bool_decide; subst;
      try solve [exfalso; apply Hnot;
                 repeat first [apply list_elem_of_here
                              | apply list_elem_of_further]].
    by eexists.
  - rewrite bool_decide_true by done. rewrite Hnone. by eexists.
Qed.

End Questionnaire.

(** ** The callbacks on concrete questionnaires *)

(** A questionnaire after the mandatory questions of a local repository. *)
Definition answered (repoKey : string) : InteractiveQuestionnaire unit :=
  mkQuestionnaire
    (<[Key := AString repoKey]>
       (<[Rclass := AString Local]> (<[TemplateType := AString Create]> ∅)))
    [] ∅.

Lemma projectKeyCallback_prefixes_witness :
  (projectKeyCallback (answered "libs-release") "acme").1 = ("", None)
  ∧ projectKeyCallback (projectKeyCallback (answered "libs-release") "acme").2 "acme"
    = (("", None), (projectKeyCallback (answered "libs-release") "acme").2).
Proof.
  destruct (projectKeyCallback_prefixes (answered "libs-release") "acme"
              "libs-release") as (Hok & _ & _ & _ & Hagain).
  - vm_compute. reflexivity.
  - split; [exact Hok|exact Hagain].
Defined.

Lemma optional_keys_well_formed_witness :
  wellFormedKeys ":x" "OptionalKey" (localRepoOptionalKeys ":x" "maven")
  ∧ wellFormedKeys ":x" "OptionalKey" (remoteRepoOptionalKeys ":x" "maven" "update")
  ∧ wellFormedKeys ":x" "OptionalKey" (virtualRepoOptionalKeys ":x" "maven").
Proof.
  apply (optional_keys_well_formed ":x" "OptionalKey" "maven" "update").
  apply (bool_decide_unpack _). vm_compute. exact I.
Defined.

Lemma remote_url_optional_iff_update_witness :
  Url ∈ remoteRepoOptionalKeys ":x" "npm" "create" ↔ "create" = Update.
Proof.
  apply (remote_url_optional_iff_update ":x" "npm" "create").
  apply (bool_decide_unpack _). vm_compute. exact I.
Defined.

Lemma rclassCallback_rejects_witness :
  ∃ e, rclassCallback "" (λ _ _, []) (λ _ iq, (("", None), iq))
         (answered "libs-release") "cloud"
       = (("", Some e), answered "libs-release").
Proof.
  apply (rclassCallback_rejects "" (λ _ _, []) (λ _ iq, (("", None), iq))
           (answered "libs-release") "cloud").
  left. apply (bool_decide_unpack _). vm_compute. exact I.
Defined.

End Template.
